(** * rsband_local_planner: the ROS wrapper of the Reeds-Shepp band planner

    A shallow embedding of [src/rsband_local_planner_ros.cpp]
    (class [RSBandPlannerROS]) and the properties of its windowed band
    update, goal check, orientation interpolation and velocity command.

    Conventions of the embedding:
    - [double] is IEEE binary64, i.e. Rocq's primitive [float];
    - [int], [unsigned int] and [size_t] are [Z] with the conversion
      written out ([to_int], [to_unsigned], [to_size_t]);
    - [std::vector] is [list], indexed with stdpp's lookup; an access
      outside the vector is the fault [OutOfRange];
    - the objects the class only drives (tf listener, costmap, elastic band
      planner, Reeds-Shepp planner, path tracking controller, libm and
      base_local_planner helpers) are the fields of the class
      [Collaborators];
    - member functions run in the monad [M], which threads the object and
      stops at a fault;
    - [trace_] is a ghost field that records, newest first, the calls made
      to the collaborators, the log lines written and, in
      [computeVelocityCommands], the calls of [updateEBand] and
      [interpolateOrientations]. *)

From Stdlib Require Import ZArith Floats.
From stdpp Require Import base list strings.

Local Open Scope Z_scope.

(** ** Machine integers *)

(** Conversion to [unsigned int] (32 bits). *)
Definition to_unsigned (z : Z) : Z := z mod 2 ^ 32.

(** Conversion to [size_t] (64 bits). *)
Definition to_size_t (z : Z) : Z := z mod 2 ^ 64.

(** Conversion to [int] (32 bits, two's complement). *)
Definition to_int (z : Z) : Z := (z + 2 ^ 31) mod 2 ^ 32 - 2 ^ 31.

(** [v.size()] *)
Definition size {A} (v : list A) : Z := Z.of_nat (length v).

(** ** Faults and results *)

Inductive Fault :=
| OutOfRange    (* access outside a vector *)
| NullPointer   (* dereference of an unset collaborator pointer *)
| TfException   (* exception thrown by tf *)
| ProcessExit   (* exit(EXIT_FAILURE) *)
| Diverges.     (* a loop that does not end *)

Inductive Res (A : Type) :=
| Ok (a : A)
| Err (f : Fault).
Arguments Ok {A} a.
Arguments Err {A} f.

(** [v[i]], [v.front()], [v.back()] and the assignment [v[i] = x]. *)
Definition at_ {A} (v : list A) (i : Z) : option A :=
  if decide (0 <= i < size v) then v !! Z.to_nat i else None.

Definition front {A} (v : list A) : option A := at_ v 0.

Definition back {A} (v : list A) : option A := at_ v (size v - 1).

Definition assign_at {A} (v : list A) (i : Z) (x : A) : list A :=
  <[Z.to_nat i := x]> v.

(** [w.assign(v.begin() + k, v.end())] *)
Definition slice_from {A} (v : list A) (k : Z) : Res (list A) :=
  if decide (0 <= k <= size v) then Ok (drop (Z.to_nat k) v) else Err OutOfRange.

(** ** Messages *)

Module Time.
Record t := mk { sec : Z; nsec : Z }.
End Time.

Module Header.
Record t := mk { seq : Z; stamp : Time.t; frame_id : string }.
End Header.

Module Point.
Record t := mk { x : float; y : float; z : float }.
End Point.

Module Quaternion.
Record t := mk { x : float; y : float; z : float; w : float }.
End Quaternion.

Module Pose.
Record t := mk { position : Point.t; orientation : Quaternion.t }.
End Pose.

Module PoseStamped.
Record t := mk { header : Header.t; pose : Pose.t }.
End PoseStamped.

Module Vector3.
Record t := mk { x : float; y : float; z : float }.
End Vector3.

Module Twist.
Record t := mk { linear : Vector3.t; angular : Vector3.t }.
End Twist.

Abbreviation Plan := (list PoseStamped.t).

Definition stamp_of (p : PoseStamped.t) : Time.t :=
  Header.stamp (PoseStamped.header p).

Definition orientation_of (p : PoseStamped.t) : Quaternion.t :=
  Pose.orientation (PoseStamped.pose p).

Definition position_of (p : PoseStamped.t) : Point.t :=
  Pose.position (PoseStamped.pose p).

(** [p.header.stamp = t] *)
Definition with_stamp (t : Time.t) (p : PoseStamped.t) : PoseStamped.t :=
  PoseStamped.mk
    (Header.mk (Header.seq (PoseStamped.header p)) t
       (Header.frame_id (PoseStamped.header p)))
    (PoseStamped.pose p).

(** [p.pose.orientation = q] *)
Definition with_orientation (q : Quaternion.t) (p : PoseStamped.t)
  : PoseStamped.t :=
  PoseStamped.mk (PoseStamped.header p) (Pose.mk (position_of p) q).

(** [!d] for a double [d]: true exactly when [d] compares equal to zero. *)
Definition not_double (d : float) : bool := PrimFloat.eqb d 0%float.

(** ** Collaborators *)

(** [eband_local_planner::AddAtPosition] *)
Inductive AddAtPosition := add_front | add_back.

(** The fields of [RSBandPlannerConfig] that this file reads. *)
Record RSBandPlannerConfig := mkConfig {
  xy_goal_tolerance : float;
  yaw_goal_tolerance : float;
  eband_to_rs_strategy : Z
}.

(** Everything the class calls and does not define.  A collaborator object
    is an abstract value; a method that can change its object returns the
    new one.  Output parameters passed by reference are returned next to
    the method's own result, and take the previous content as input. *)
Class Collaborators := {
  TransformListener : Type;
  Costmap2DROS : Type;
  TfStampedPose : Type;          (* tf::Stamped<tf::Pose> *)
  EBandPlanner : Type;
  ReedsSheppPlanner : Type;
  CarLikeFuzzyPTC : Type;
  (* libm and tf *)
  atan2 : float -> float -> float;
  getYaw : Quaternion.t -> float;
  createQuaternionMsgFromYaw : float -> Quaternion.t;
  poseStampedTFToMsg : TfStampedPose -> PoseStamped.t;
  transformPose : TransformListener -> string -> Time.t -> PoseStamped.t ->
                  string -> option PoseStamped.t;   (* None: it throws *)
  (* costmap_2d::Costmap2DROS *)
  getRobotPose : Costmap2DROS -> option TfStampedPose;
  getGlobalFrameID : Costmap2DROS -> string;
  resetLayers : Costmap2DROS -> Costmap2DROS;
  (* base_local_planner *)
  getGoalPositionDistance : TfStampedPose -> float -> float -> float;
  getGoalOrientationAngleDifference : TfStampedPose -> float -> float;
  (* eband_local_planner *)
  transformGlobalPlan : TransformListener -> Plan -> Costmap2DROS -> string ->
                        Plan -> list Z -> bool * Plan * list Z;
  new_EBandPlanner : string -> Costmap2DROS -> EBandPlanner;
  eband_setPlan : Costmap2DROS -> EBandPlanner -> Plan -> bool * EBandPlanner;
  eband_addFrames : Costmap2DROS -> EBandPlanner -> Plan -> AddAtPosition ->
                    bool * EBandPlanner;
  eband_optimizeBand : Costmap2DROS -> EBandPlanner -> bool * EBandPlanner;
  eband_getPlan : EBandPlanner -> Plan -> bool * Plan;
  (* ReedsSheppPlanner *)
  new_ReedsSheppPlanner : string -> Costmap2DROS -> TransformListener ->
                          ReedsSheppPlanner;
  rs_reconfigure : ReedsSheppPlanner -> RSBandPlannerConfig -> ReedsSheppPlanner;
  rs_planPath : ReedsSheppPlanner -> PoseStamped.t -> PoseStamped.t -> Plan ->
                bool * Plan * ReedsSheppPlanner;
  rs_planPathUntilFailure : ReedsSheppPlanner -> Plan -> Plan ->
                            Z * Plan * ReedsSheppPlanner;
  rs_planPathSkipFailures : ReedsSheppPlanner -> Plan -> Plan ->
                            Z * Plan * ReedsSheppPlanner;
  rs_planRecedingPath : ReedsSheppPlanner -> Plan -> Plan ->
                        Z * Plan * ReedsSheppPlanner;
  (* CarLikeFuzzyPTC *)
  new_CarLikeFuzzyPTC : string -> CarLikeFuzzyPTC;
  ptc_reconfigure : CarLikeFuzzyPTC -> RSBandPlannerConfig -> CarLikeFuzzyPTC;
  ptc_computeVelocityCommands : CarLikeFuzzyPTC -> Plan -> Twist.t ->
                                bool * Twist.t * CarLikeFuzzyPTC;
  (* dynamic_reconfigure: the configuration the server hands to the callback
     when the callback is registered *)
  drs_config : string -> RSBandPlannerConfig
}.

(** ** Trace *)

Inductive LogLevel := DEBUG | INFO | WARN | ERROR.

Inductive Event :=
| Log (l : LogLevel) (msg : string)
| CallGetRobotPose
| CallTransformGlobalPlan
| CallResetLayers
| CallEBandSetPlan (plan : Plan)
| CallEBandAddFrames (frames : Plan) (pos : AddAtPosition)
| CallEBandOptimizeBand
| CallEBandGetPlan
| CallUpdateEBand
| CallInterpolateOrientations
| CallRSPlan (strategy : Z)
| CallTransformPose
| CallPublishPlan (topic : string) (plan : Plan)
| CallPTC (plan : Plan).

(** The frame lists handed to the back of the band, newest first, as a
    trace has them. *)
Definition appended (trace : list Event) : list Plan :=
  omap (fun e => match e with
                 | CallEBandAddFrames frames add_back => Some frames
                 | _ => None
                 end) trace.

Section Planner.
Context `{Collaborators}.

(** ** The object *)

Record RSBandPlannerROS := mkPlanner {
  initialized_ : bool;
  tfListener_ : option TransformListener;
  costmapROS_ : option Costmap2DROS;
  ebandPlanner_ : option EBandPlanner;
  rsbandPlanner_ : option ReedsSheppPlanner;
  ptc_ : option CarLikeFuzzyPTC;
  eband2RSStrategy_ : Z;
  xyGoalTolerance_ : float;
  yawGoalTolerance_ : float;
  globalPlan_ : Plan;
  transformedPlan_ : Plan;
  planStartEndCounters_ : list Z;
  trace_ : list Event
}.

(** The constructor sets [initialized_] only; the scalar members keep
    whatever value they happen to have, given here as arguments. *)
Definition constructed (strategy : Z) (xy yaw : float) : RSBandPlannerROS :=
  mkPlanner false None None None None None strategy xy yaw [] [] [] [].

Definition set_initialized (v : bool) (s : RSBandPlannerROS) :=
  mkPlanner v (tfListener_ s) (costmapROS_ s) (ebandPlanner_ s)
    (rsbandPlanner_ s) (ptc_ s) (eband2RSStrategy_ s) (xyGoalTolerance_ s)
    (yawGoalTolerance_ s) (globalPlan_ s) (transformedPlan_ s)
    (planStartEndCounters_ s) (trace_ s).

Definition set_tfListener v (s : RSBandPlannerROS) :=
  mkPlanner (initialized_ s) v (costmapROS_ s) (ebandPlanner_ s)
    (rsbandPlanner_ s) (ptc_ s) (eband2RSStrategy_ s) (xyGoalTolerance_ s)
    (yawGoalTolerance_ s) (globalPlan_ s) (transformedPlan_ s)
    (planStartEndCounters_ s) (trace_ s).

Definition set_costmapROS v (s : RSBandPlannerROS) :=
  mkPlanner (initialized_ s) (tfListener_ s) v (ebandPlanner_ s)
    (rsbandPlanner_ s) (ptc_ s) (eband2RSStrategy_ s) (xyGoalTolerance_ s)
    (yawGoalTolerance_ s) (globalPlan_ s) (transformedPlan_ s)
    (planStartEndCounters_ s) (trace_ s).

Definition set_ebandPlanner v (s : RSBandPlannerROS) :=
  mkPlanner (initialized_ s) (tfListener_ s) (costmapROS_ s) v
    (rsbandPlanner_ s) (ptc_ s) (eband2RSStrategy_ s) (xyGoalTolerance_ s)
    (yawGoalTolerance_ s) (globalPlan_ s) (transformedPlan_ s)
    (planStartEndCounters_ s) (trace_ s).

Definition set_rsbandPlanner v (s : RSBandPlannerROS) :=
  mkPlanner (initialized_ s) (tfListener_ s) (costmapROS_ s) (ebandPlanner_ s)
    v (ptc_ s) (eband2RSStrategy_ s) (xyGoalTolerance_ s)
    (yawGoalTolerance_ s) (globalPlan_ s) (transformedPlan_ s)
    (planStartEndCounters_ s) (trace_ s).

Definition set_ptc v (s : RSBandPlannerROS) :=
  mkPlanner (initialized_ s) (tfListener_ s) (costmapROS_ s) (ebandPlanner_ s)
    (rsbandPlanner_ s) v (eband2RSStrategy_ s) (xyGoalTolerance_ s)
    (yawGoalTolerance_ s) (globalPlan_ s) (transformedPlan_ s)
    (planStartEndCounters_ s) (trace_ s).

Definition set_eband2RSStrategy v (s : RSBandPlannerROS) :=
  mkPlanner (initialized_ s) (tfListener_ s) (costmapROS_ s) (ebandPlanner_ s)
    (rsbandPlanner_ s) (ptc_ s) v (xyGoalTolerance_ s)
    (yawGoalTolerance_ s) (globalPlan_ s) (transformedPlan_ s)
    (planStartEndCounters_ s) (trace_ s).

Definition set_xyGoalTolerance v (s : RSBandPlannerROS) :=
  mkPlanner (initialized_ s) (tfListener_ s) (costmapROS_ s) (ebandPlanner_ s)
    (rsbandPlanner_ s) (ptc_ s) (eband2RSStrategy_ s) v
    (yawGoalTolerance_ s) (globalPlan_ s) (transformedPlan_ s)
    (planStartEndCounters_ s) (trace_ s).

Definition set_yawGoalTolerance v (s : RSBandPlannerROS) :=
  mkPlanner (initialized_ s) (tfListener_ s) (costmapROS_ s) (ebandPlanner_ s)
    (rsbandPlanner_ s) (ptc_ s) (eband2RSStrategy_ s) (xyGoalTolerance_ s)
    v (globalPlan_ s) (transformedPlan_ s)
    (planStartEndCounters_ s) (trace_ s).

Definition set_globalPlan v (s : RSBandPlannerROS) :=
  mkPlanner (initialized_ s) (tfListener_ s) (costmapROS_ s) (ebandPlanner_ s)
    (rsbandPlanner_ s) (ptc_ s) (eband2RSStrategy_ s) (xyGoalTolerance_ s)
    (yawGoalTolerance_ s) v (transformedPlan_ s)
    (planStartEndCounters_ s) (trace_ s).

Definition set_transformedPlan v (s : RSBandPlannerROS) :=
  mkPlanner (initialized_ s) (tfListener_ s) (costmapROS_ s) (ebandPlanner_ s)
    (rsbandPlanner_ s) (ptc_ s) (eband2RSStrategy_ s) (xyGoalTolerance_ s)
    (yawGoalTolerance_ s) (globalPlan_ s) v
    (planStartEndCounters_ s) (trace_ s).

Definition set_planStartEndCounters v (s : RSBandPlannerROS) :=
  mkPlanner (initialized_ s) (tfListener_ s) (costmapROS_ s) (ebandPlanner_ s)
    (rsbandPlanner_ s) (ptc_ s) (eband2RSStrategy_ s) (xyGoalTolerance_ s)
    (yawGoalTolerance_ s) (globalPlan_ s) (transformedPlan_ s)
    v (trace_ s).

Definition set_trace v (s : RSBandPlannerROS) :=
  mkPlanner (initialized_ s) (tfListener_ s) (costmapROS_ s) (ebandPlanner_ s)
    (rsbandPlanner_ s) (ptc_ s) (eband2RSStrategy_ s) (xyGoalTolerance_ s)
    (yawGoalTolerance_ s) (globalPlan_ s) (transformedPlan_ s)
    (planStartEndCounters_ s) v.

(** ** The monad of member functions *)

Definition M (A : Type) : Type := RSBandPlannerROS -> Res (A * RSBandPlannerROS).

Definition ret {A} (a : A) : M A := fun s => Ok (a, s).

Definition bind {A B} (m : M A) (k : A -> M B) : M B :=
  fun s => match m s with
           | Ok (a, s') => k a s'
           | Err f => Err f
           end.

Definition fault {A} (f : Fault) : M A := fun _ => Err f.

Definition gets {A} (proj : RSBandPlannerROS -> A) : M A :=
  fun s => Ok (proj s, s).

Definition modify (upd : RSBandPlannerROS -> RSBandPlannerROS) : M unit :=
  fun s => Ok (tt, upd s).

Definition emit (e : Event) : M unit :=
  modify (fun s => set_trace (e :: trace_ s) s).

Definition ROS_LOG (l : LogLevel) (msg : string) : M unit := emit (Log l msg).

(** [*p] for a member pointer [p] *)
Definition deref {A} (proj : RSBandPlannerROS -> option A) : M A :=
  fun s => match proj s with
           | Some a => Ok (a, s)
           | None => Err NullPointer
           end.

(** An access that is defined only inside the vector. *)
Definition checked {A} (o : option A) : M A :=
  match o with
  | Some a => ret a
  | None => fault OutOfRange
  end.

Definition lift {A} (r : Res A) : M A :=
  match r with
  | Ok a => ret a
  | Err f => fault f
  end.

End Planner.

Declare Scope planner_scope.
Delimit Scope planner_scope with planner.
Notation "x <- c ;; k" := (bind c (fun x => k))
  (at level 100, c at next level, right associativity) : planner_scope.
Notation "c ;;; k" := (bind c (fun _ => k))
  (at level 100, right associativity) : planner_scope.
Local Open Scope planner_scope.

Section Members.
Context `{Collaborators}.

(** ** interpolateOrientations *)

(** The orientation of the last pose counts as unset when both [z] and [w]
    are zero, or when its yaw is exactly zero (the condition of the final
    [if]). *)
Definition unset_orientation (q : Quaternion.t) : bool :=
  (not_double (Quaternion.z q) && not_double (Quaternion.w q))
  || PrimFloat.eqb (getYaw q) 0%float.

(** What the loop makes of the pose [cur] followed by [next], in a plan that
    starts with [first]: the yaw of the step from [cur] to [next], and the
    stamp of [first]. *)
Definition interpolated (first cur next : PoseStamped.t) : PoseStamped.t :=
  let dx := (Point.x (position_of next) - Point.x (position_of cur))%float in
  let dy := (Point.y (position_of next) - Point.y (position_of cur))%float in
  with_stamp (stamp_of first)
    (with_orientation (createQuaternionMsgFromYaw (atan2 dy dx)) cur).

(** The body of the [for] loop at index [i]: the pose at [i] gets the yaw of
    the step to the pose at [i+1] and the stamp of the front. *)
Definition interpolate_step (plan : Plan) (i : Z) : option Plan :=
  match at_ plan (to_unsigned (i + 1)), at_ plan i with
  | Some next, Some cur =>
      let dx := (Point.x (position_of next) - Point.x (position_of cur))%float in
      let dy := (Point.y (position_of next) - Point.y (position_of cur))%float in
      let yaw := atan2 dy dx in
      let plan1 :=
        assign_at plan i (with_orientation (createQuaternionMsgFromYaw yaw) cur) in
      match front plan1, at_ plan1 i with
      | Some first, Some cur1 =>
          Some (assign_at plan1 i (with_stamp (stamp_of first) cur1))
      | _, _ => None
      end
  | _, _ => None
  end.

(** [for (unsigned int i = 1; i < plan.size() - 1; i++)]: the bound is
    computed in [size_t], the counter is an [unsigned int].  One unit of
    fuel is one iteration. *)
Fixpoint interpolate_loop (fuel : nat) (i : Z) (plan : Plan) : Res Plan :=
  if decide (i < to_size_t (size plan - 1)) then
    match fuel with
    | O => Err Diverges
    | S fuel' =>
        match interpolate_step plan i with
        | Some plan' => interpolate_loop fuel' (to_unsigned (i + 1)) plan'
        | None => Err OutOfRange
        end
    end
  else Ok plan.

(** The statements after the loop. *)
Definition interpolate_last (plan : Plan) : Res Plan :=
  match back plan, front plan with
  | Some last, Some first =>
      let last1 := with_stamp (stamp_of first) last in
      let plan1 := assign_at plan (size plan - 1) last1 in
      if unset_orientation (orientation_of last1) then
        match at_ plan1 (to_size_t (size plan1 - 2)) with
        | Some prev =>
            Ok (assign_at plan1 (size plan1 - 1)
                  (with_orientation (orientation_of prev) last1))
        | None => Err OutOfRange
        end
      else Ok plan1
  | _, _ => Err OutOfRange
  end.

(** A loop that ends at all ends within [length plan] iterations, so that
    much fuel (and one more, for the test that leaves the loop) decides
    between an end and [Diverges]. *)
Definition interpolateOrientations (plan : Plan) : Res Plan :=
  match interpolate_loop (S (length plan)) 1 plan with
  | Ok plan' => interpolate_last plan'
  | Err f => Err f
  end.

(** ** initialize and reconfigureCallback *)

Definition reconfigureCallback (config : RSBandPlannerConfig) : M unit :=
  modify (set_xyGoalTolerance (xy_goal_tolerance config));;;
  modify (set_yawGoalTolerance (yaw_goal_tolerance config));;;
  modify (set_eband2RSStrategy (eband_to_rs_strategy config));;;
  rs <- gets rsbandPlanner_;;
  match rs with
  | Some p => modify (set_rsbandPlanner (Some (rs_reconfigure p config)))
  | None =>
      ROS_LOG ERROR "Reconfigure CB called before reeds shepp planner initialization"
  end;;;
  ptc <- gets ptc_;;
  match ptc with
  | Some p => modify (set_ptc (Some (ptc_reconfigure p config)))
  | None =>
      ROS_LOG ERROR
        "Reconfigure CB called before path tracking controller initialization!"
  end.

(** The publishers carry no state of interest and are left out.
    [drs_->setCallback(cb)] runs the callback once, with the configuration
    the server holds. *)
Definition initialize (name : string) (tfListener : TransformListener)
    (costmapROS : Costmap2DROS) : M unit :=
  init <- gets initialized_;;
  if init then
    ROS_LOG WARN "Planner already initialized. Should not be called more than once"
  else
    modify (set_tfListener (Some tfListener));;;
    modify (set_costmapROS (Some costmapROS));;;
    modify (set_ebandPlanner (Some (new_EBandPlanner name costmapROS)));;;
    modify (set_rsbandPlanner
              (Some (new_ReedsSheppPlanner name costmapROS tfListener)));;;
    modify (set_eband2RSStrategy 0);;;
    modify (set_ptc (Some (new_CarLikeFuzzyPTC name)));;;
    reconfigureCallback (drs_config name);;;
    modify (set_initialized true);;;
    ROS_LOG DEBUG "Local Planner Plugin Initialized!".

(** ** Calls through the member pointers *)

(** A call of a method of [*ebandPlanner_] that answers with a bool. *)
Definition eband_call (e : Event)
    (method : Costmap2DROS -> EBandPlanner -> bool * EBandPlanner) : M bool :=
  eb <- deref ebandPlanner_;;
  cm <- deref costmapROS_;;
  emit e;;;
  let '(ok, eb') := method cm eb in
  modify (set_ebandPlanner (Some eb'));;;
  ret ok.

Definition ebandSetPlan (plan : Plan) : M bool :=
  eband_call (CallEBandSetPlan plan) (fun cm eb => eband_setPlan cm eb plan).

Definition ebandAddFrames (frames : Plan) (pos : AddAtPosition) : M bool :=
  eband_call (CallEBandAddFrames frames pos)
    (fun cm eb => eband_addFrames cm eb frames pos).

Definition ebandOptimizeBand : M bool :=
  eband_call CallEBandOptimizeBand eband_optimizeBand.

(** [eband_local_planner::transformGlobalPlan] on the tf listener, the
    member [globalPlan_], the costmap, its global frame, the member
    [transformedPlan_] and the counters given: the member
    [transformedPlan_] is written whatever the answer; the new counters are
    returned with the answer. *)
Definition callTransformGlobalPlan (counters : list Z) : M (bool * list Z) :=
  tf <- deref tfListener_;;
  gp <- gets globalPlan_;;
  cm <- deref costmapROS_;;
  tp <- gets transformedPlan_;;
  emit CallTransformGlobalPlan;;;
  let '(ok, tp', counters') :=
    transformGlobalPlan tf gp cm (getGlobalFrameID cm) tp counters in
  modify (set_transformedPlan tp');;;
  ret (ok, counters').

(** [v.empty()] *)
Definition empty_vec {A} (v : list A) : bool :=
  match v with [] => true | _ => false end.

(** ** setPlan *)

Definition setPlan (globalPlan : Plan) : M bool :=
  init <- gets initialized_;;
  if negb init then
    ROS_LOG ERROR "Planner must be initialized before setPlan is called!";;;
    ret false
  else
    modify (set_globalPlan globalPlan);;;
    gp <- gets globalPlan_;;
    let n := to_int (size gp) in
    r <- callTransformGlobalPlan [n; n];;
    let '(ok, planStartEndCounters) := r in
    if negb ok then
      ROS_LOG WARN "Could not transform global plan to the local frame";;;
      ret false
    else
      tp <- gets transformedPlan_;;
      if empty_vec tp then
        ROS_LOG WARN "Transformed Plan is empty.";;;
        ret false
      else
        let rest :=
          modify (set_planStartEndCounters planStartEndCounters);;;
          opt <- ebandOptimizeBand;;
          (if negb opt then ROS_LOG WARN "Optimization of eband failed!"
           else ret tt);;;
          ret true in
        set1 <- ebandSetPlan tp;;
        if negb set1 then
          cm <- deref costmapROS_;;
          emit CallResetLayers;;;
          modify (set_costmapROS (Some (resetLayers cm)));;;
          set2 <- ebandSetPlan tp;;
          if negb set2 then
            ROS_LOG ERROR "Setting plan to Elastic Band failed!";;;
            ret false
          else rest
        else rest.

(** ** isGoalReached *)

(** The distance in the plane from the robot to the goal pose, and the
    difference of heading, as base_local_planner computes them. *)
Definition goalDistance (robotPose : TfStampedPose) (goal : PoseStamped.t)
  : float :=
  getGoalPositionDistance robotPose
    (Point.x (position_of goal)) (Point.y (position_of goal)).

Definition goalYawDifference (robotPose : TfStampedPose) (goal : PoseStamped.t)
  : float :=
  getGoalOrientationAngleDifference robotPose (getYaw (orientation_of goal)).

Definition isGoalReached : M bool :=
  init <- gets initialized_;;
  if negb init then
    ROS_LOG ERROR "Planner must be initialized before isGoalReached is called!";;;
    ret false
  else
    cm <- deref costmapROS_;;
    emit CallGetRobotPose;;;
    match getRobotPose cm with
    | None =>
        ROS_LOG ERROR "Could not get robot pose!";;;
        ret false
    | Some robotPose =>
        gp <- gets globalPlan_;;
        goal <- checked (back gp);;
        let dist := goalDistance robotPose goal in
        let yawDiff := goalYawDifference robotPose goal in
        xyTol <- gets xyGoalTolerance_;;
        yawTol <- gets yawGoalTolerance_;;
        if PrimFloat.ltb dist xyTol && PrimFloat.ltb (PrimFloat.abs yawDiff) yawTol
        then
          ROS_LOG INFO "Goal Reached!";;;
          ret true
        else ret false
    end.

(** ** updateEBand *)

(** The frames handed to the back of the band, from the persisted counters
    (member [planStartEndCounters_]) and the fresh ones (local
    [planStartEndCounters]); called once the end counters are compared. *)
Definition planToAppend (persisted fresh : list Z) (transformedPlan : Plan)
  : M Plan :=
  oldEnd <- checked (at_ persisted 1);;
  newStart <- checked (at_ fresh 0);;
  if decide (oldEnd > newStart) then ret transformedPlan
  else
    let numOfDiscardedFrames := to_int (newStart - oldEnd) in
    lift (slice_from transformedPlan (numOfDiscardedFrames + 1)).

Definition updateEBand : M bool :=
  init <- gets initialized_;;
  if negb init then
    ROS_LOG WARN "Planner must be initialized before updateEBand is called!";;;
    ret false
  else
    cm <- deref costmapROS_;;
    emit CallGetRobotPose;;;
    match getRobotPose cm with
    | None =>
        ROS_LOG ERROR "Could not get robot pose!";;;
        ret false
    | Some robotPose =>
        let robotPoseMsg := poseStampedTFToMsg robotPose in
        let tmpPlan := [robotPoseMsg] in
        added <- ebandAddFrames tmpPlan add_front;;
        if negb added then
          ROS_LOG WARN "Could not connect current robot pose to existing eband!";;;
          ret false
        else
          copy <- gets planStartEndCounters_;;
          r <- callTransformGlobalPlan copy;;
          let '(ok, planStartEndCounters) := r in
          if negb ok then
            ROS_LOG WARN "Failed to transform the global plan to the local frame!";;;
            ret false
          else
            tp <- gets transformedPlan_;;
            if empty_vec tp then
              ROS_LOG WARN "Transformed plan is empty!";;;
              ret false
            else
              let rest :=
                opt <- ebandOptimizeBand;;
                if negb opt then
                  ROS_LOG WARN "Failed to optimize eband!";;;
                  ret false
                else ret true in
              persisted <- gets planStartEndCounters_;;
              oldEnd <- checked (at_ persisted 1);;
              newEnd <- checked (at_ planStartEndCounters 1);;
              if decide (oldEnd > newEnd) then
                frames <- planToAppend persisted planStartEndCounters tp;;
                appended <- ebandAddFrames frames add_back;;
                if appended then
                  modify (set_planStartEndCounters planStartEndCounters);;;
                  rest
                else
                  ROS_LOG WARN "Failed to add frames to existing band";;;
                  ret false
              else rest
    end.

(** ** computeVelocityCommands *)

(** [cmd.linear.x = 0.0; cmd.linear.y = 0.0; cmd.angular.z = 0.0;] *)
Definition stop_command (cmd : Twist.t) : Twist.t :=
  Twist.mk
    (Vector3.mk 0%float 0%float (Vector3.z (Twist.linear cmd)))
    (Vector3.mk (Vector3.x (Twist.angular cmd)) (Vector3.y (Twist.angular cmd))
       0%float).

(** The [switch] on [eband2RSStrategy_]: the value given to [failIdx] and
    the Reeds-Shepp plan.  The Reeds-Shepp planner is declared in a header
    of its own: [planPath] is taken to answer with a bool (it multiplies
    the size of the band) and the other three with an [int]. *)
Definition planRSBand (ebandPlan : Plan) : M (Z * Plan) :=
  strategy <- gets eband2RSStrategy_;;
  let run (planner : ReedsSheppPlanner -> Plan -> Plan ->
                     Z * Plan * ReedsSheppPlanner) : M (Z * Plan) :=
    rs <- deref rsbandPlanner_;;
    emit (CallRSPlan strategy);;;
    let '(idx, rsbandPlan, rs') := planner rs ebandPlan [] in
    modify (set_rsbandPlanner (Some rs'));;;
    ret (to_int idx, rsbandPlan) in
  match strategy with
  | 0 =>
      rs <- deref rsbandPlanner_;;
      first <- checked (front ebandPlan);;
      last <- checked (back ebandPlan);;
      emit (CallRSPlan strategy);;;
      let '(ok, rsbandPlan, rs') := rs_planPath rs first last [] in
      modify (set_rsbandPlanner (Some rs'));;;
      ret (to_int (to_size_t (size ebandPlan * (if ok then 1 else 0))),
           rsbandPlan)
  | 1 => run rs_planPathUntilFailure
  | 2 => run rs_planPathSkipFailures
  | 3 => run rs_planRecedingPath
  | _ =>
      ROS_LOG ERROR "Invalid eband_to_rs_strategy!";;;
      fault ProcessExit
  end.

(** [for (unsigned int i = failIdx+1; i < ebandPlan.size(); i++)]: the poses
    of the band left out by the Reeds-Shepp plan are transformed and pushed
    to the back of the local plan. *)
Fixpoint mergeLeftOut (fuel : nat) (i : Z) (ebandPlan rsbandPlan localPlan : Plan)
  : M Plan :=
  if decide (i < size ebandPlan) then
    match fuel with
    | O => fault Diverges
    | S fuel' =>
        tf <- deref tfListener_;;
        rsFirst <- checked (front rsbandPlan);;
        ebFirst <- checked (front ebandPlan);;
        cur <- checked (at_ ebandPlan i);;
        emit CallTransformPose;;;
        match transformPose tf (Header.frame_id (PoseStamped.header rsFirst))
                (stamp_of ebFirst) cur
                (Header.frame_id (PoseStamped.header cur)) with
        | Some pose =>
            mergeLeftOut fuel' (to_unsigned (i + 1)) ebandPlan rsbandPlan
              (localPlan ++ [pose])
        | None => fault TfException
        end
    end
  else ret localPlan.

Definition computeVelocityCommands (cmd : Twist.t) : M (bool * Twist.t) :=
  init <- gets initialized_;;
  if negb init then
    ROS_LOG ERROR
      "Planner must be initialized before computeVelocityCommands is called!";;;
    ret (false, cmd)
  else
    reached <- isGoalReached;;
    if reached then ret (true, stop_command cmd)
    else
      emit CallUpdateEBand;;;
      updated <- updateEBand;;
      if negb updated then
        ROS_LOG ERROR "Failed to update eband!";;;
        ret (false, cmd)
      else
        eb <- deref ebandPlanner_;;
        emit CallEBandGetPlan;;;
        let '(got, ebandPlan0) := eband_getPlan eb [] in
        if negb got || empty_vec ebandPlan0 then
          ROS_LOG ERROR "Failed to get eband planner plan!";;;
          ret (false, cmd)
        else
          emit CallInterpolateOrientations;;;
          ebandPlan <- lift (interpolateOrientations ebandPlan0);;
          emit (CallPublishPlan "eband_plan" ebandPlan);;;
          r <- planRSBand ebandPlan;;
          let '(failIdx, rsbandPlan) := r in
          if decide (failIdx = 0) then
            ROS_LOG ERROR "Failed to get rsband plan";;;
            ret (false, cmd)
          else
            localPlan <- mergeLeftOut (S (length ebandPlan))
                           (to_unsigned (to_int (failIdx + 1)))
                           ebandPlan rsbandPlan rsbandPlan;;
            gp <- gets globalPlan_;;
            emit (CallPublishPlan "global_plan" gp);;;
            emit (CallPublishPlan "local_plan" localPlan);;;
            emit (CallPublishPlan "reeds_sheep_plan" rsbandPlan);;;
            ptc <- deref ptc_;;
            emit (CallPTC localPlan);;;
            let '(ok, cmd', ptc') := ptc_computeVelocityCommands ptc localPlan cmd in
            modify (set_ptc (Some ptc'));;;
            if negb ok then
              ROS_LOG ERROR "Path tracking controller failed to produce command";;;
              ret (false, cmd')
            else ret (true, cmd').

End Members.

(** ** Scripted collaborators

    A small instance of [Collaborators] to run the member functions on
    concrete input.  The band is the list of its poses; the tf listener
    carries the answer [transformGlobalPlan] gives; the costmap carries the
    robot pose, when there is one.  The numeric helpers are stand-ins: the
    yaw of a quaternion is read from its [z] field. *)
Module Scripted.

Record band := mkBand { poses : Plan; relaxes : bool; accepts : bool }.

Definition distance (robot : PoseStamped.t) (gx gy : float) : float :=
  let dx := (gx - Point.x (position_of robot))%float in
  let dy := (gy - Point.y (position_of robot))%float in
  PrimFloat.sqrt (dx * dx + dy * dy)%float.

Definition add (b : band) (frames : Plan) (pos : AddAtPosition) : bool * band :=
  if accepts b then
    (true, mkBand (match pos with
                   | add_front => frames ++ poses b
                   | add_back => poses b ++ frames
                   end) (relaxes b) (accepts b))
  else (false, b).

Definition collaborators : Collaborators := {|
  TransformListener := bool * Plan * list Z;
  Costmap2DROS := option PoseStamped.t;
  TfStampedPose := PoseStamped.t;
  EBandPlanner := band;
  ReedsSheppPlanner := unit;
  CarLikeFuzzyPTC := unit;
  atan2 := fun dy dx => if PrimFloat.eqb dy 0 then 0%float else 1%float;
  getYaw := Quaternion.z;
  createQuaternionMsgFromYaw := fun yaw => Quaternion.mk 0 0 yaw 1;
  poseStampedTFToMsg := fun p => p;
  transformPose := fun _ _ _ p _ => Some p;
  getRobotPose := fun cm => cm;
  getGlobalFrameID := fun _ => "odom";
  resetLayers := fun cm => cm;
  getGoalPositionDistance := distance;
  getGoalOrientationAngleDifference :=
    fun robot yaw => (yaw - Quaternion.z (orientation_of robot))%float;
  transformGlobalPlan := fun tf _ _ _ _ _ => tf;
  new_EBandPlanner := fun _ _ => mkBand [] true true;
  eband_setPlan := fun _ b plan => (true, mkBand plan (relaxes b) (accepts b));
  eband_addFrames := fun _ => add;
  eband_optimizeBand := fun _ b => (relaxes b, b);
  eband_getPlan := fun b _ => (true, poses b);
  new_ReedsSheppPlanner := fun _ _ _ => tt;
  rs_reconfigure := fun p _ => p;
  rs_planPath := fun p a b _ => (true, [a; b], p);
  rs_planPathUntilFailure := fun p plan _ => (size plan, plan, p);
  rs_planPathSkipFailures := fun p plan _ => (size plan, plan, p);
  rs_planRecedingPath := fun p plan _ => (size plan, plan, p);
  new_CarLikeFuzzyPTC := fun _ => tt;
  ptc_reconfigure := fun p _ => p;
  ptc_computeVelocityCommands :=
    fun p _ cmd => (true, Twist.mk (Vector3.mk 1 0 0) (Twist.angular cmd), p);
  drs_config := fun _ => mkConfig 0.5 0.25 0
|}.

(** A pose at [(x, y)] with yaw field [yaw], stamped [t]. *)
Definition pose_at (t : Z) (x y yaw : float) : PoseStamped.t :=
  PoseStamped.mk (Header.mk 0 (Time.mk t 0) "map")
    (Pose.mk (Point.mk x y 0) (Quaternion.mk 0 0 yaw 1)).

(** The planner after [initialize], with the fields under test given. *)
Definition planner (tf : bool * Plan * list Z) (robot : option PoseStamped.t)
    (b : band) (globalPlan : Plan) (counters : list Z)
  : @RSBandPlannerROS collaborators :=
  @mkPlanner collaborators true (Some tf) (Some robot) (Some b) (Some tt)
    (Some tt) 0 0.5%float 0.25%float globalPlan [] counters [].

(** Nine poses along the x axis. *)
Definition path9 : Plan :=
  map (fun x => pose_at 7 x 0 0.5) [5; 6; 7; 8; 9; 10; 11; 12; 13]%float.

Definition robot : PoseStamped.t := pose_at 7 4 0 0.5.

Definition band1 : band := mkBand [pose_at 7 5 0 0.5] true true.

(** Twenty poses along the x axis; [path9] is its poses 5 to 13. *)
Definition path20 : Plan :=
  map (fun x => pose_at 7 x 0 0.5)
    [0; 1; 2; 3; 4; 5; 6; 7; 8; 9; 10; 11; 12; 13; 14; 15; 16; 17; 18; 19]%float.

(** The window from pose 5 to pose 10 of [path20], then the window from
    pose 5 to pose 14.  The transform counts the poses from a pose of the
    plan to its end: persisted counters (15, 10), fresh counters (15, 6).
    The transformed plan is [path9]. *)
Definition counters_15_10 : @RSBandPlannerROS collaborators :=
  planner (true, path9, [15; 6]) (Some robot) band1 path20 [15; 10].

(** Persisted counters (20, 15), fresh counters (17, 12). *)
Definition counters_20_15 : @RSBandPlannerROS collaborators :=
  planner (true, path9, [17; 12]) (Some robot) band1 path9 [20; 15].

(** Persisted counters (20, 15), fresh counters (12, 9). *)
Definition counters_far : @RSBandPlannerROS collaborators :=
  planner (true, path9, [12; 9]) (Some robot) band1 path9 [20; 15].

(** As [counters_20_15], with a band that does not relax. *)
Definition unrelaxed : @RSBandPlannerROS collaborators :=
  planner (true, path9, [17; 12]) (Some robot)
    (mkBand [pose_at 7 5 0 0.5] false true) path9 [20; 15].

(** As [unrelaxed], with fresh counters (20, 15): the window did not
    move. *)
Definition unrelaxed_kept : @RSBandPlannerROS collaborators :=
  planner (true, path9, [20; 15]) (Some robot)
    (mkBand [pose_at 7 5 0 0.5] false true) path9 [20; 15].

(** A transform that fails after writing one pose and new counters. *)
Definition untransformed : @RSBandPlannerROS collaborators :=
  planner (false, [pose_at 7 5 0 0.5], [3; 4]) (Some robot) band1 path9
    [20; 15].

(** The robot on the last pose of the global plan. *)
Definition arrived : @RSBandPlannerROS collaborators :=
  planner (true, path9, [17; 12]) (Some (pose_at 7 13 0 0.5)) band1 path9
    [20; 15].

(** The robot at 0.5 from the last pose of the global plan, with 0.5 the
    tolerance. *)
Definition at_tolerance : @RSBandPlannerROS collaborators :=
  planner (true, path9, [17; 12]) (Some (pose_at 7 12.5 0 0.5)) band1 path9
    [20; 15].

(** Initialized, no plan set. *)
Definition no_plan : @RSBandPlannerROS collaborators :=
  planner (true, path9, [0; 9]) (Some robot) band1 [] [].


Definition four_poses : Plan :=
  [pose_at 1 0 0 0.5; pose_at 2 1 0 0.25; pose_at 3 2 1 0.125; pose_at 4 3 3 0].

Definition other_plan : Plan := [pose_at 9 1 1 0.5; pose_at 9 2 2 0.5].

Definition some_command : Twist.t :=
  Twist.mk (Vector3.mk 1 2 3) (Vector3.mk 4 5 6).

(** The planner a run left, or the planner it started from. *)
Definition after {A} (r : Res (A * @RSBandPlannerROS collaborators))
    (st : @RSBandPlannerROS collaborators) : @RSBandPlannerROS collaborators :=
  match r with
  | Ok (_, st') => st'
  | Err _ => st
  end.

End Scripted.

(** ** Scripted collaborators with a band that can reject a plan

    As [Scripted], with a costmap that remembers whether its layers were
    reset and a band that says whether it takes a plan before and after
    such a reset. *)
Module Retry.

Record band := mkBand {
  poses : Plan;
  accepts_before_reset : bool;
  accepts_after_reset : bool
}.

Definition collaborators : Collaborators := {|
  TransformListener := bool * Plan * list Z;
  Costmap2DROS := bool * option PoseStamped.t;
  TfStampedPose := PoseStamped.t;
  EBandPlanner := band;
  ReedsSheppPlanner := unit;
  CarLikeFuzzyPTC := unit;
  atan2 := fun dy dx => if PrimFloat.eqb dy 0 then 0%float else 1%float;
  getYaw := Quaternion.z;
  createQuaternionMsgFromYaw := fun yaw => Quaternion.mk 0 0 yaw 1;
  poseStampedTFToMsg := fun p => p;
  transformPose := fun _ _ _ p _ => Some p;
  getRobotPose := snd;
  getGlobalFrameID := fun _ => "odom";
  resetLayers := fun cm => (true, snd cm);
  getGoalPositionDistance := Scripted.distance;
  getGoalOrientationAngleDifference :=
    fun robot yaw => (yaw - Quaternion.z (orientation_of robot))%float;
  transformGlobalPlan := fun tf _ _ _ _ _ => tf;
  new_EBandPlanner := fun _ _ => mkBand [] true true;
  eband_setPlan :=
    fun cm b plan =>
      if (if fst cm then accepts_after_reset b else accepts_before_reset b)
      then (true, mkBand plan (accepts_before_reset b) (accepts_after_reset b))
      else (false, b);
  eband_addFrames := fun _ b _ _ => (true, b);
  eband_optimizeBand := fun _ b => (true, b);
  eband_getPlan := fun b _ => (true, poses b);
  new_ReedsSheppPlanner := fun _ _ _ => tt;
  rs_reconfigure := fun p _ => p;
  rs_planPath := fun p a b _ => (true, [a; b], p);
  rs_planPathUntilFailure := fun p plan _ => (size plan, plan, p);
  rs_planPathSkipFailures := fun p plan _ => (size plan, plan, p);
  rs_planRecedingPath := fun p plan _ => (size plan, plan, p);
  new_CarLikeFuzzyPTC := fun _ => tt;
  ptc_reconfigure := fun p _ => p;
  ptc_computeVelocityCommands :=
    fun p _ cmd => (true, Twist.mk (Vector3.mk 1 0 0) (Twist.angular cmd), p);
  drs_config := fun _ => mkConfig 0.5 0.25 0
|}.

(** An initialized planner with no plan yet, on a band [b]. *)
Definition planner (b : band) : @RSBandPlannerROS collaborators :=
  @mkPlanner collaborators true (Some (true, Scripted.path9, [0; 9]))
    (Some (false, Some Scripted.robot)) (Some b) (Some tt) (Some tt) 0
    0.5%float 0.25%float [] [] [] [].

(** A band that takes the plan once the layers are reset, and one that never
    takes it. *)
Definition reluctant : band := mkBand [] false true.

Definition stubborn : band := mkBand [] false false.

Definition after {A} (r : Res (A * @RSBandPlannerROS collaborators))
    (st : @RSBandPlannerROS collaborators) : @RSBandPlannerROS collaborators :=
  match r with
  | Ok (_, st') => st'
  | Err _ => st
  end.

End Retry.

(** ** More planners on the scripted collaborators *)
Module Cases.
Import Scripted.

(** Just constructed. *)
Definition fresh : @RSBandPlannerROS collaborators := constructed 0 0.5 0.25.

(** Initialized, no plan set, on a band that does not relax. *)
Definition no_plan_unrelaxed : @RSBandPlannerROS collaborators :=
  planner (true, path9, [0; 9]) (Some robot) (mkBand [] false true) [] [].

(** No robot pose to be had. *)
Definition lost : @RSBandPlannerROS collaborators :=
  planner (true, path9, [17; 12]) None band1 path9 [20; 15].

(** A band that takes no frames. *)
Definition closed_band : @RSBandPlannerROS collaborators :=
  planner (true, path9, [17; 12]) (Some robot)
    (mkBand [pose_at 7 5 0 0.5] true false) path9 [20; 15].

(** A strategy that does not exist. *)
Definition misconfigured : @RSBandPlannerROS collaborators :=
  set_eband2RSStrategy 7 counters_20_15.

Definition three_poses : Plan :=
  [pose_at 1 0 0 0.5; pose_at 2 1 0 0.25; pose_at 3 2 1 0.125].

End Cases.

(** ** Relations between poses

    [same_place p q]: the poses [p] and [q] have the same position, frame
    and sequence number; they can differ in orientation and stamp. *)
Definition same_place (p q : PoseStamped.t) : Prop :=
  position_of p = position_of q /\
  Header.frame_id (PoseStamped.header p) = Header.frame_id (PoseStamped.header q) /\
  Header.seq (PoseStamped.header p) = Header.seq (PoseStamped.header q).

(** ** Relations between planners

    [same_setup st st']: the planners [st] and [st'] have the same global
    plan, initialization flag, tf listener, costmap, strategy and
    tolerances. *)
Definition same_setup `{Collaborators} (st st' : RSBandPlannerROS) : Prop :=
  globalPlan_ st' = globalPlan_ st /\
  initialized_ st' = initialized_ st /\
  tfListener_ st' = tfListener_ st /\
  costmapROS_ st' = costmapROS_ st /\
  eband2RSStrategy_ st' = eband2RSStrategy_ st /\
  xyGoalTolerance_ st' = xyGoalTolerance_ st /\
  yawGoalTolerance_ st' = yawGoalTolerance_ st.

(** * Properties *)

Section Properties.
Context `{Collaborators}.

(** ** Machine integers and vectors *)

Lemma to_size_t_small z : 0 <= z < 2 ^ 64 -> to_size_t z = z.
Proof. intros Hz. unfold to_size_t. apply Z.mod_small. exact Hz. Qed.

Lemma to_unsigned_small z : 0 <= z < 2 ^ 32 -> to_unsigned z = z.
Proof. intros Hz. unfold to_unsigned. apply Z.mod_small. exact Hz. Qed.

Lemma to_int_small z : - 2 ^ 31 <= z < 2 ^ 31 -> to_int z = z.
Proof.
  intros Hz. unfold to_int. rewrite Z.mod_small; lia.
Qed.

Lemma at_nat {A} (v : list A) (n : nat) : at_ v (Z.of_nat n) = v !! n.
Proof.
  unfold at_, size. case_decide as Hn.
  - by rewrite Nat2Z.id.
  - symmetry. apply lookup_ge_None. lia.
Qed.

Lemma at_outside {A} (v : list A) (i : Z) : size v <= i -> at_ v i = None.
Proof. intros Hi. unfold at_. case_decide; [lia | done]. Qed.

Lemma front_lookup {A} (v : list A) : front v = v !! 0%nat.
Proof. exact (at_nat v 0). Qed.

Lemma back_lookup {A} (v : list A) :
  v <> [] -> back v = v !! (length v - 1)%nat.
Proof.
  intros Hv. unfold back, size.
  replace (Z.of_nat (length v) - 1) with (Z.of_nat (length v - 1)).
  - apply at_nat.
  - destruct v; [done | simpl; lia].
Qed.

Lemma assign_at_nat {A} (v : list A) (n : nat) (x : A) :
  assign_at v (Z.of_nat n) x = <[n := x]> v.
Proof. unfold assign_at. by rewrite Nat2Z.id. Qed.

(** ** interpolateOrientations: the loop *)

Lemma interpolate_step_inside (plan : Plan) (k : nat) first cur next :
  (1 <= k)%nat -> size plan <= 2 ^ 32 ->
  plan !! 0%nat = Some first -> plan !! k = Some cur ->
  plan !! S k = Some next ->
  interpolate_step plan (Z.of_nat k)
  = Some (<[k := interpolated first cur next]> plan).
Proof.
  intros Hk Hsize Hfirst Hcur Hnext.
  pose proof (lookup_lt_Some _ _ _ Hnext) as Hlt.
  unfold interpolate_step, size in *.
  rewrite to_unsigned_small by lia.
  replace (Z.of_nat k + 1) with (Z.of_nat (S k)) by lia.
  rewrite !at_nat, Hnext, Hcur. cbn zeta.
  rewrite assign_at_nat, front_lookup, at_nat.
  rewrite list_lookup_insert_ne by lia.
  rewrite list_lookup_insert_eq by lia.
  rewrite Hfirst, assign_at_nat, list_insert_insert_eq.
  reflexivity.
Qed.

Lemma interpolate_loop_inside (fuel : nat) :
  forall (k : nat) (plan : Plan),
    (1 <= k <= length plan - 1)%nat -> size plan <= 2 ^ 32 ->
    (length plan - 1 - k <= fuel)%nat ->
    exists out,
      interpolate_loop fuel (Z.of_nat k) plan = Ok out /\
      length out = length plan /\
      (forall j, (j < k \/ length plan - 1 <= j)%nat -> out !! j = plan !! j) /\
      (forall j first cur next,
          (k <= j < length plan - 1)%nat ->
          plan !! 0%nat = Some first -> plan !! j = Some cur ->
          plan !! S j = Some next ->
          out !! j = Some (interpolated first cur next)).
Proof.
  induction fuel as [|fuel IH]; intros k plan Hk Hsize Hfuel.
  - exists plan. cbn [interpolate_loop]. unfold size in *.
    rewrite to_size_t_small by lia.
    case_decide; [lia|].
    split; [done|]. split; [done|]. split; [done|]. intros; lia.
  - cbn [interpolate_loop]. unfold size in Hsize |- *.
    rewrite to_size_t_small by lia.
    case_decide as Hin.
    + destruct (lookup_lt_is_Some_2 plan 0%nat) as [first Hfirst]; [lia|].
      destruct (lookup_lt_is_Some_2 plan k) as [cur Hcur]; [lia|].
      destruct (lookup_lt_is_Some_2 plan (S k)) as [next Hnext]; [lia|].
      rewrite (interpolate_step_inside plan k first cur next)
        by (done || lia || (unfold size; lia)).
      rewrite to_unsigned_small by lia.
      replace (Z.of_nat k + 1) with (Z.of_nat (S k)) by lia.
      destruct (IH (S k) (<[k := interpolated first cur next]> plan))
        as (out & Hout & Hlen & Hsame & Hnew).
      { rewrite length_insert. lia. }
      { unfold size. rewrite length_insert. lia. }
      { rewrite length_insert. lia. }
      rewrite length_insert in *.
      exists out. split; [done|]. split; [done|]. split.
      * intros j Hj. rewrite Hsame by lia.
        apply list_lookup_insert_ne. lia.
      * intros j first' cur' next' Hj Hfirst' Hcur' Hnext'.
        destruct (decide (j = k)) as [->|Hne].
        -- rewrite Hsame by lia.
           rewrite list_lookup_insert_eq by lia. congruence.
        -- apply Hnew; [lia | | |]; rewrite list_lookup_insert_ne by lia; done.
    + exists plan.
      split; [done|]. split; [done|]. split; [done|]. intros; lia.
Qed.

(** ** interpolateOrientations: plans of three poses and more *)

(** C7: on a plan of at least three poses (and no more than an
    [unsigned int] counts) [interpolateOrientations] returns a plan [out]
    of the same length such that
    - the first pose is the one given;
    - every interior pose [i] has for orientation the quaternion of the yaw
      [atan2 dy dx] of the step from the given pose [i] to the given pose
      [i+1], and for stamp the stamp of the first pose; its position, frame
      and sequence number are the ones given;
    - the last pose has the stamp of the first pose; its orientation is the
      one the second-to-last pose of [out] has when the orientation given
      is unset (z and w both zero, or yaw exactly zero), and the one given
      otherwise; its position, frame and sequence number are the ones
      given. *)
Theorem interpolateOrientations_three_or_more (plan : Plan) :
  (3 <= length plan)%nat -> size plan <= 2 ^ 32 ->
  exists out first last prev final,
    interpolateOrientations plan = Ok out /\
    length out = length plan /\
    plan !! 0%nat = Some first /\
    plan !! (length plan - 1)%nat = Some last /\
    out !! 0%nat = Some first /\
    (forall i cur next,
        (1 <= i < length plan - 1)%nat ->
        plan !! i = Some cur -> plan !! S i = Some next ->
        exists p,
          out !! i = Some p /\
          Pose.orientation (PoseStamped.pose p)
          = createQuaternionMsgFromYaw
              (atan2
                 (Point.y (Pose.position (PoseStamped.pose next))
                  - Point.y (Pose.position (PoseStamped.pose cur)))
                 (Point.x (Pose.position (PoseStamped.pose next))
                  - Point.x (Pose.position (PoseStamped.pose cur)))) /\
          Header.stamp (PoseStamped.header p)
          = Header.stamp (PoseStamped.header first) /\
          Pose.position (PoseStamped.pose p)
          = Pose.position (PoseStamped.pose cur) /\
          Header.frame_id (PoseStamped.header p)
          = Header.frame_id (PoseStamped.header cur) /\
          Header.seq (PoseStamped.header p) = Header.seq (PoseStamped.header cur)) /\
    out !! (length plan - 2)%nat = Some prev /\
    out !! (length plan - 1)%nat = Some final /\
    Header.stamp (PoseStamped.header final)
    = Header.stamp (PoseStamped.header first) /\
    Pose.orientation (PoseStamped.pose final)
    = (if (PrimFloat.eqb
             (Quaternion.z (Pose.orientation (PoseStamped.pose last))) 0
           && PrimFloat.eqb
                (Quaternion.w (Pose.orientation (PoseStamped.pose last))) 0)
          || PrimFloat.eqb (getYaw (Pose.orientation (PoseStamped.pose last))) 0
       then Pose.orientation (PoseStamped.pose prev)
       else Pose.orientation (PoseStamped.pose last)) /\
    Pose.position (PoseStamped.pose final)
    = Pose.position (PoseStamped.pose last) /\
    Header.frame_id (PoseStamped.header final)
    = Header.frame_id (PoseStamped.header last) /\
    Header.seq (PoseStamped.header final) = Header.seq (PoseStamped.header last).
Proof.
  intros Hlen Hsize.
  destruct (interpolate_loop_inside (S (length plan)) 1 plan)
    as (mid & Hmid & Hlen' & Hsame & Hnew); [lia | done | lia |].
  destruct (lookup_lt_is_Some_2 plan 0%nat) as [first Hfirst]; [lia|].
  destruct (lookup_lt_is_Some_2 plan (length plan - 1)%nat) as [last Hlast];
    [lia|].
  destruct (lookup_lt_is_Some_2 plan (length plan - 2)%nat) as [cur Hcur];
    [lia|].
  assert (Hprev : mid !! (length plan - 2)%nat
                  = Some (interpolated first cur last)).
  { apply Hnew; [lia | done | done |].
    replace (S (length plan - 2)) with (length plan - 1)%nat by lia. done. }
  assert (Hnonempty : mid <> []) by (intros ->; simpl in Hlen'; lia).
  set (last1 := with_stamp (stamp_of first) last).
  set (prev := interpolated first cur last) in *.
  set (final := if unset_orientation (orientation_of last)
                then with_orientation (orientation_of prev) last1
                else last1).
  assert (Hrun : interpolateOrientations plan
                 = Ok (<[(length plan - 1)%nat := final]> mid)).
  { unfold interpolateOrientations. unfold size in Hsize.
    change 1 with (Z.of_nat 1) at 1. rewrite Hmid.
    unfold interpolate_last.
    rewrite back_lookup, front_lookup, Hlen' by done.
    rewrite !Hsame by lia. rewrite Hlast, Hfirst.
    unfold size. rewrite Hlen'.
    replace (Z.of_nat (length plan) - 1) with (Z.of_nat (length plan - 1))
      by lia.
    rewrite !assign_at_nat.
    change (orientation_of (with_stamp (stamp_of first) last))
      with (orientation_of last).
    subst final. fold last1.
    destruct (unset_orientation (orientation_of last)); [|done].
    rewrite length_insert, Hlen'.
    rewrite to_size_t_small by lia.
    replace (Z.of_nat (length plan) - 2) with (Z.of_nat (length plan - 2))
      by lia.
    replace (Z.of_nat (length plan) - 1) with (Z.of_nat (length plan - 1))
      by lia.
    rewrite at_nat, list_lookup_insert_ne by lia.
    rewrite Hprev, assign_at_nat, list_insert_insert_eq. done. }
  exists (<[(length plan - 1)%nat := final]> mid), first, last, prev, final.
  split; [done|]. split; [by rewrite length_insert|].
  split; [done|]. split; [done|].
  split; [rewrite list_lookup_insert_ne by lia; rewrite Hsame by lia; done|].
  split.
  { intros i c n Hi Hc Hn. exists (interpolated first c n).
    split; [|by repeat split].
    rewrite list_lookup_insert_ne by lia. by apply Hnew. }
  split; [rewrite list_lookup_insert_ne by lia; done|].
  split; [by rewrite list_lookup_insert_eq by lia|].
  subst final last1. unfold unset_orientation, not_double, orientation_of.
  by destruct (_ || _).
Qed.

(** ** interpolateOrientations: plans of fewer than three poses *)

Lemma with_stamp_same (p : PoseStamped.t) : with_stamp (stamp_of p) p = p.
Proof. by destruct p as [[] ?]. Qed.

Lemma interpolate_loop_short (fuel : nat) (plan : Plan) :
  (1 <= length plan <= 2)%nat -> interpolate_loop fuel 1 plan = Ok plan.
Proof.
  intros Hlen. destruct fuel; cbn [interpolate_loop]; unfold size;
    (rewrite to_size_t_small by lia); case_decide; (lia || done).
Qed.


(** C8: on the empty plan the loop bound [plan.size() - 1] wraps to the
    largest [size_t], the loop is entered and reads [plan[2]] and [plan[1]]
    outside the vector; on a single pose with an unset orientation the last
    statement reads [plan[plan.size()-2]] outside the vector. *)
Theorem interpolateOrientations_out_of_range :
  to_size_t (size (@nil PoseStamped.t) - 1) = 2 ^ 64 - 1 /\
  1 < to_size_t (size (@nil PoseStamped.t) - 1) /\
  at_ (@nil PoseStamped.t) 1 = None /\
  at_ (@nil PoseStamped.t) (to_unsigned (1 + 1)) = None /\
  front (@nil PoseStamped.t) = None /\
  back (@nil PoseStamped.t) = None /\
  interpolate_step [] 1 = None /\
  interpolateOrientations [] = Err OutOfRange /\
  (forall p,
      unset_orientation (orientation_of p) = true ->
      interpolateOrientations [p] = Err OutOfRange).
Proof.
  do 8 (split; [reflexivity|]).
  intros p Hunset. unfold interpolateOrientations.
  rewrite interpolate_loop_short by (simpl; lia).
  unfold interpolate_last.
  rewrite back_lookup, front_lookup by done.
  unfold assign_at, size. simpl.
  change (orientation_of (with_stamp (stamp_of p) p))
    with (orientation_of p).
  by rewrite Hunset.
Qed.

(** ** Comparison of doubles *)

Lemma ltb_irrefl (x : float) : (x <? x)%float = false.
Proof.
  rewrite FloatAxioms.ltb_spec. unfold SFltb.
  destruct (SFcompare (Prim2SF x) (Prim2SF x)) as [[]|] eqn:E; try done.
  exfalso.
  destruct (Prim2SF x) as [s|s| |s m e]; simpl in E; try done.
  - by destruct s.
  - destruct s; try done;
      rewrite Z.compare_refl, Pos.compare_cont_refl in E; done.
Qed.

Lemma ltb_eqb_false (x y : float) : (x =? y)%float = true -> (x <? y)%float = false.
Proof.
  intros Heq. rewrite FloatAxioms.eqb_spec in Heq.
  rewrite FloatAxioms.ltb_spec. unfold SFeqb, SFltb in *.
  by destruct (SFcompare (Prim2SF x) (Prim2SF y)) as [[]|].
Qed.

(** ** Running member functions *)

Lemma Ok_pair_inj {A S} (a a' : A) (s s' : S) :
  Ok (a, s) = Ok (a', s') -> a = a' /\ s = s'.
Proof. intros [= -> ->]. done. Qed.

Ltac run_member :=
  unfold bind, gets, deref, ret, modify, emit, ROS_LOG, checked, fault, lift;
  simpl.

(** ** isGoalReached *)

Lemma isGoalReached_run st cm robotPose goal :
  initialized_ st = true ->
  costmapROS_ st = Some cm ->
  getRobotPose cm = Some robotPose ->
  back (globalPlan_ st) = Some goal ->
  isGoalReached st
  = if ((goalDistance robotPose goal <? xyGoalTolerance_ st)%float
        && (PrimFloat.abs (goalYawDifference robotPose goal)
            <? yawGoalTolerance_ st)%float)
    then Ok (true, set_trace (Log INFO "Goal Reached!" :: CallGetRobotPose
                                :: trace_ st) st)
    else Ok (false, set_trace (CallGetRobotPose :: trace_ st) st).
Proof.
  intros Hinit Hcm Hpose Hgoal.
  unfold isGoalReached. run_member.
  rewrite Hinit; simpl. rewrite Hcm; simpl. rewrite Hpose; simpl.
  rewrite Hgoal; run_member.
  by destruct (_ && _).
Qed.

Lemma isGoalReached_true_inv st st1 :
  isGoalReached st = Ok (true, st1) ->
  initialized_ st = true /\
  st1 = set_trace (Log INFO "Goal Reached!" :: CallGetRobotPose :: trace_ st) st.
Proof.
  unfold isGoalReached. run_member.
  destruct (initialized_ st); simpl; [|done].
  destruct (costmapROS_ st) as [cm|]; simpl; [|done].
  destruct (getRobotPose cm); simpl; [|done].
  destruct (back (globalPlan_ st)); run_member; [|done].
  destruct (_ && _); [|done].
  intros Hrun; apply Ok_pair_inj in Hrun. by destruct Hrun as [_ <-].
Qed.

Lemma back_last {A} (v : list A) : back v = last v.
Proof.
  destruct (decide (v = [])) as [->|Hv]; [done|].
  rewrite back_lookup, last_lookup by done. f_equal. lia.
Qed.

(** C5: with the planner initialized, the robot pose at hand and [goal] the
    last pose of the global plan, [isGoalReached] answers true exactly when
    the distance base_local_planner gives from the robot pose to the
    position (x, y) of the goal is strictly below [xyGoalTolerance_] and
    the absolute value of the angle difference it gives to the yaw of the
    goal's orientation is strictly below [yawGoalTolerance_]; a distance
    equal to the tolerance (the same double, or one that compares equal) is
    not reached, whatever the heading. *)
Theorem isGoalReached_strict st cm robotPose goal :
  initialized_ st = true ->
  costmapROS_ st = Some cm ->
  getRobotPose cm = Some robotPose ->
  last (globalPlan_ st) = Some goal ->
  exists reached st',
    isGoalReached st = Ok (reached, st') /\
    (reached = true <->
     (getGoalPositionDistance robotPose
        (Point.x (Pose.position (PoseStamped.pose goal)))
        (Point.y (Pose.position (PoseStamped.pose goal)))
      <? xyGoalTolerance_ st)%float = true /\
     (PrimFloat.abs
        (getGoalOrientationAngleDifference robotPose
           (getYaw (Pose.orientation (PoseStamped.pose goal))))
      <? yawGoalTolerance_ st)%float = true) /\
    (getGoalPositionDistance robotPose
       (Point.x (Pose.position (PoseStamped.pose goal)))
       (Point.y (Pose.position (PoseStamped.pose goal)))
     = xyGoalTolerance_ st \/
     (getGoalPositionDistance robotPose
        (Point.x (Pose.position (PoseStamped.pose goal)))
        (Point.y (Pose.position (PoseStamped.pose goal)))
      =? xyGoalTolerance_ st)%float = true ->
     reached = false).
Proof.
  intros Hinit Hcm Hpose Hgoal. rewrite <- back_last in Hgoal.
  rewrite (isGoalReached_run st cm robotPose goal) by done.
  unfold goalDistance, goalYawDifference, position_of, orientation_of.
  set (dist := getGoalPositionDistance robotPose _ _).
  set (yawDiff := getGoalOrientationAngleDifference robotPose _).
  destruct (dist <? xyGoalTolerance_ st)%float eqn:Hxy;
    destruct (PrimFloat.abs yawDiff <? yawGoalTolerance_ st)%float eqn:Hyaw;
    cbn [andb]; eexists _, _; (split; [reflexivity|]);
    (split; [split; [intros E | intros [E1 E2]]; try discriminate; auto|]).
  all: try (intros _; reflexivity).
  all: intros [Heq|Heq];
    [rewrite Heq, ltb_irrefl in Hxy | apply ltb_eqb_false in Heq]; congruence.
Qed.

Lemma initialize_constructed name tf cm strategy xy yaw :
  exists st,
    initialize name tf cm (constructed strategy xy yaw) = Ok (tt, st) /\
    initialized_ st = true /\ costmapROS_ st = Some cm /\
    tfListener_ st = Some tf /\
    globalPlan_ st = [] /\ planStartEndCounters_ st = [].
Proof.
  eexists. split; [vm_compute; reflexivity|]. by vm_compute.
Qed.

Lemma isGoalReached_no_goal st cm robotPose :
  initialized_ st = true ->
  costmapROS_ st = Some cm ->
  getRobotPose cm = Some robotPose ->
  globalPlan_ st = [] ->
  isGoalReached st = Err OutOfRange.
Proof.
  intros Hinit Hcm Hpose Hplan.
  unfold isGoalReached. run_member.
  rewrite Hinit; simpl. rewrite Hcm; simpl. rewrite Hpose; simpl.
  rewrite Hplan. done.
Qed.

(** C9: [isGoalReached] takes [globalPlan_.back()] without looking at the
    size of the plan.  With the planner initialized and the robot pose at
    hand, an empty [globalPlan_] makes that access fall outside the vector;
    this is the state right after [initialize], before any [setPlan]. *)
Theorem isGoalReached_empty_plan :
  (forall st cm robotPose,
      initialized_ st = true ->
      costmapROS_ st = Some cm ->
      getRobotPose cm = Some robotPose ->
      globalPlan_ st = [] ->
      isGoalReached st = Err OutOfRange) /\
  (forall name tf cm robotPose strategy xy yaw,
      getRobotPose cm = Some robotPose ->
      (initialize name tf cm;;; isGoalReached) (constructed strategy xy yaw)
      = Err OutOfRange).
Proof.
  split; [exact isGoalReached_no_goal|].
  intros name tf cm robotPose strategy xy yaw Hpose.
  destruct (initialize_constructed name tf cm strategy xy yaw)
    as (st & Hrun & Hinit & Hcm & _ & Hplan & _).
  unfold bind at 1. rewrite Hrun.
  by apply (isGoalReached_no_goal st cm robotPose).
Qed.

(** C6: when [isGoalReached] answers true, [computeVelocityCommands]
    returns true with linear x, linear y and angular z of the command set to
    zero; the trace of the cycle holds the pose query and the log line of
    the goal check and nothing else, so [updateEBand],
    [interpolateOrientations], the Reeds-Shepp planner and the path tracking
    controller are not called, and every member is left as it was. *)
Theorem computeVelocityCommands_goal_reached st st1 cmd :
  isGoalReached st = Ok (true, st1) ->
  computeVelocityCommands cmd st = Ok ((true, stop_command cmd), st1) /\
  Vector3.x (Twist.linear (stop_command cmd)) = 0%float /\
  Vector3.y (Twist.linear (stop_command cmd)) = 0%float /\
  Vector3.z (Twist.angular (stop_command cmd)) = 0%float /\
  st1 = set_trace (Log INFO "Goal Reached!" :: CallGetRobotPose :: trace_ st) st.
Proof.
  intros Hreached.
  destruct (isGoalReached_true_inv _ _ Hreached) as [Hinit Hst1].
  split; [|done].
  unfold computeVelocityCommands. run_member.
  rewrite Hinit; simpl. rewrite Hreached. done.
Qed.

(** ** updateEBand *)

Ltac unfold_update :=
  unfold updateEBand, planToAppend, ebandAddFrames, ebandOptimizeBand,
    eband_call, callTransformGlobalPlan;
  run_member.

(** C10: when the robot pose was put at the front of the band and the
    transform of the global plan then fails, or gives an empty plan,
    [updateEBand] returns false with the band as the front-add left it and
    [transformedPlan_] as the transform left it; [planStartEndCounters_]
    and [globalPlan_] are as before. *)
Theorem updateEBand_not_atomic st cm tf eb eb1 robotPose ok tp fresh :
  initialized_ st = true ->
  costmapROS_ st = Some cm ->
  tfListener_ st = Some tf ->
  ebandPlanner_ st = Some eb ->
  getRobotPose cm = Some robotPose ->
  eband_addFrames cm eb [poseStampedTFToMsg robotPose] add_front = (true, eb1) ->
  transformGlobalPlan tf (globalPlan_ st) cm (getGlobalFrameID cm)
    (transformedPlan_ st) (planStartEndCounters_ st) = (ok, tp, fresh) ->
  ok = false \/ tp = [] ->
  exists st',
    updateEBand st = Ok (false, st') /\
    ebandPlanner_ st' = Some eb1 /\
    transformedPlan_ st' = tp /\
    planStartEndCounters_ st' = planStartEndCounters_ st /\
    globalPlan_ st' = globalPlan_ st.
Proof.
  intros Hinit Hcm Htf Heb Hpose Hfront Htransform Hfail.
  unfold_update.
  rewrite Hinit; simpl. rewrite Hcm; simpl. rewrite Hpose; simpl.
  rewrite Heb; simpl. rewrite Hcm; simpl. rewrite Hfront; simpl.
  rewrite Htf; simpl. rewrite Hcm; simpl. rewrite Htransform; simpl.
  destruct ok; simpl.
  - destruct Hfail as [Hok | ->]; [done|]. simpl.
    eexists. split; [reflexivity|]. done.
  - eexists. split; [reflexivity|]. done.
Qed.

#[local] Arguments at_ : simpl never.
#[local] Arguments to_int : simpl never.
#[local] Arguments slice_from : simpl never.

(** What is left of [updateEBand] once the robot pose is at the front of
    the band and the transform gave a plan that is not empty: the
    comparison of the end counters, the append and the relaxation. *)
Lemma updateEBand_after_transform st cm tf eb eb1 robotPose tp fresh
    oldEnd newEnd :
  initialized_ st = true ->
  costmapROS_ st = Some cm ->
  tfListener_ st = Some tf ->
  ebandPlanner_ st = Some eb ->
  getRobotPose cm = Some robotPose ->
  eband_addFrames cm eb [poseStampedTFToMsg robotPose] add_front = (true, eb1) ->
  transformGlobalPlan tf (globalPlan_ st) cm (getGlobalFrameID cm)
    (transformedPlan_ st) (planStartEndCounters_ st) = (true, tp, fresh) ->
  tp <> [] ->
  at_ (planStartEndCounters_ st) 1 = Some oldEnd ->
  at_ fresh 1 = Some newEnd ->
  updateEBand st
  = (if decide (oldEnd > newEnd) then
       frames <- planToAppend (planStartEndCounters_ st) fresh tp;;
       appended <- ebandAddFrames frames add_back;;
       if appended then
         modify (set_planStartEndCounters fresh);;;
         opt <- ebandOptimizeBand;;
         if negb opt then ROS_LOG WARN "Failed to optimize eband!";;; ret false
         else ret true
       else ROS_LOG WARN "Failed to add frames to existing band";;; ret false
     else
       opt <- ebandOptimizeBand;;
       if negb opt then ROS_LOG WARN "Failed to optimize eband!";;; ret false
       else ret true)
      (set_transformedPlan tp
         (set_trace (CallTransformGlobalPlan
                       :: CallEBandAddFrames [poseStampedTFToMsg robotPose]
                            add_front
                       :: CallGetRobotPose :: trace_ st)
            (set_ebandPlanner (Some eb1) st))).
Proof.
  intros Hinit Hcm Htf Heb Hpose Hfront Htransform Htp Hold Hend.
  unfold updateEBand at 1.
  unfold ebandAddFrames at 1, eband_call at 1, callTransformGlobalPlan.
  run_member.
  rewrite Hinit; simpl. rewrite Hcm; simpl. rewrite Hpose; simpl.
  rewrite Heb; simpl. rewrite Hcm; simpl. rewrite Hfront; simpl.
  rewrite Htf; simpl. rewrite Hcm; simpl. rewrite Htransform; simpl.
  destruct tp as [|p tp']; [done|]. simpl.
  rewrite Hold; simpl. rewrite Hend; simpl.
  by destruct (decide (oldEnd > newEnd)).
Qed.

(** C1, as the code has it.  The robot pose is at the front of the band and
    the transform gave the plan [tp], not empty, and the fresh counters.
    A counter is the number of poses from a pose of the global plan to its
    end ([setPlan] starts both at the size of the plan), so a counter that
    went down is an index that advanced.  With [oldEnd] the persisted end
    counter, [newStart] and [newEnd] the fresh counters:
    - nothing is handed to the back of the band unless [oldEnd > newEnd],
      and the persisted counters then stay;
    - if [oldEnd > newEnd] and [oldEnd > newStart], all of [tp] is handed
      over;
    - if [oldEnd > newEnd] and [oldEnd <= newStart], then
      [numOfDiscardedFrames = newStart - oldEnd] and [tp] from element
      [numOfDiscardedFrames + 1] to its end is handed over. *)
Theorem updateEBand_append st cm tf eb eb1 robotPose tp fresh
    oldEnd newStart newEnd :
  initialized_ st = true ->
  costmapROS_ st = Some cm ->
  tfListener_ st = Some tf ->
  ebandPlanner_ st = Some eb ->
  getRobotPose cm = Some robotPose ->
  eband_addFrames cm eb [poseStampedTFToMsg robotPose] add_front = (true, eb1) ->
  transformGlobalPlan tf (globalPlan_ st) cm (getGlobalFrameID cm)
    (transformedPlan_ st) (planStartEndCounters_ st) = (true, tp, fresh) ->
  tp <> [] ->
  at_ (planStartEndCounters_ st) 1 = Some oldEnd ->
  at_ fresh 0 = Some newStart ->
  at_ fresh 1 = Some newEnd ->
  (oldEnd <= newEnd ->
   exists ok st',
     updateEBand st = Ok (ok, st') /\
     appended (trace_ st') = appended (trace_ st) /\
     planStartEndCounters_ st' = planStartEndCounters_ st) /\
  (oldEnd > newEnd -> oldEnd > newStart ->
   exists ok st',
     updateEBand st = Ok (ok, st') /\
     appended (trace_ st') = tp :: appended (trace_ st)) /\
  (oldEnd > newEnd -> oldEnd <= newStart ->
   0 <= oldEnd -> newStart < 2 ^ 31 -> newStart - oldEnd + 1 <= size tp ->
   exists ok st',
     updateEBand st = Ok (ok, st') /\
     appended (trace_ st')
     = drop (Z.to_nat (newStart - oldEnd + 1)) tp :: appended (trace_ st)).
Proof.
  intros Hinit Hcm Htf Heb Hpose Hfront Htransform Htp Hold Hstart Hend.
  rewrite (updateEBand_after_transform st cm tf eb eb1 robotPose tp fresh
             oldEnd newEnd) by done.
  split; [|split].
  - intros Hle. case_decide; [lia|].
    unfold ebandOptimizeBand, eband_call. run_member. rewrite Hcm; simpl.
    destruct (eband_optimizeBand cm eb1) as [[] eb2]; simpl;
      eexists _, _; (split; [reflexivity|]); done.
  - intros Hgt Hwhole. case_decide; [|lia].
    unfold planToAppend, ebandAddFrames, ebandOptimizeBand, eband_call.
    run_member. rewrite Hold; simpl. rewrite Hstart; simpl.
    case_decide; [|lia]. simpl. rewrite Hcm; simpl.
    destruct (eband_addFrames cm eb1 tp add_back) as [[] eb2]; simpl.
    + rewrite Hcm; simpl.
      destruct (eband_optimizeBand cm eb2) as [[] eb3]; simpl;
        eexists _, _; (split; [reflexivity|]); done.
    + eexists _, _; (split; [reflexivity|]); done.
  - intros Hgt Hpart Hnonneg Hint Hrange. case_decide; [|lia].
    unfold planToAppend, ebandAddFrames, ebandOptimizeBand, eband_call.
    run_member. rewrite Hold; simpl. rewrite Hstart; simpl.
    case_decide; [lia|]. rewrite to_int_small by lia.
    unfold slice_from. case_decide; [|lia]. simpl. rewrite Hcm; simpl.
    destruct (eband_addFrames cm eb1 _ add_back) as [[] eb2]; simpl.
    + rewrite Hcm; simpl.
      destruct (eband_optimizeBand cm eb2) as [[] eb3]; simpl;
        eexists _, _; (split; [reflexivity|]); done.
    + eexists _, _; (split; [reflexivity|]); done.
Qed.

(** Case analysis on what a run in the goal looks at next, innermost
    first; the branches that contradict the run are closed. *)
Ltac split_run :=
  repeat match goal with
         | |- context [match ?x with _ => _ end] =>
             lazymatch x with
             | context [match _ with _ => _ end] => fail
             | _ => destruct x eqn:?; simpl; try (intros; discriminate)
             end
         end.

(** C2, as the code has it.  The robot pose is at the front of the band and
    the transform gave the plan [tp], not empty, and the fresh counters.
    When the relaxation asked for at the end of [updateEBand] fails, the
    member writes the warning "Failed to optimize eband!" and returns false;
    it neither throws nor ends the process, and it asks for no second
    relaxation.  What the cycle did before stays done: the band is the one
    the failed relaxation left, [transformedPlan_] is [tp] and, when frames
    were appended, [planStartEndCounters_] are the fresh counters. *)
Theorem updateEBand_relaxation_fatal st cm tf eb eb1 robotPose tp fresh
    oldEnd newEnd :
  initialized_ st = true ->
  costmapROS_ st = Some cm ->
  tfListener_ st = Some tf ->
  ebandPlanner_ st = Some eb ->
  getRobotPose cm = Some robotPose ->
  eband_addFrames cm eb [poseStampedTFToMsg robotPose] add_front = (true, eb1) ->
  transformGlobalPlan tf (globalPlan_ st) cm (getGlobalFrameID cm)
    (transformedPlan_ st) (planStartEndCounters_ st) = (true, tp, fresh) ->
  tp <> [] ->
  at_ (planStartEndCounters_ st) 1 = Some oldEnd ->
  at_ fresh 1 = Some newEnd ->
  (forall eb2,
     oldEnd <= newEnd ->
     eband_optimizeBand cm eb1 = (false, eb2) ->
     updateEBand st
     = Ok (false,
           set_trace (Log WARN "Failed to optimize eband!"
                        :: CallEBandOptimizeBand
                        :: CallTransformGlobalPlan
                        :: CallEBandAddFrames [poseStampedTFToMsg robotPose]
                             add_front
                        :: CallGetRobotPose :: trace_ st)
             (set_ebandPlanner (Some eb2) (set_transformedPlan tp st)))) /\
  (forall frames eb2 eb3,
     oldEnd > newEnd ->
     (forall s, planToAppend (planStartEndCounters_ st) fresh tp s
                = Ok (frames, s)) ->
     eband_addFrames cm eb1 frames add_back = (true, eb2) ->
     eband_optimizeBand cm eb2 = (false, eb3) ->
     updateEBand st
     = Ok (false,
           set_trace (Log WARN "Failed to optimize eband!"
                        :: CallEBandOptimizeBand
                        :: CallEBandAddFrames frames add_back
                        :: CallTransformGlobalPlan
                        :: CallEBandAddFrames [poseStampedTFToMsg robotPose]
                             add_front
                        :: CallGetRobotPose :: trace_ st)
             (set_ebandPlanner (Some eb3)
                (set_planStartEndCounters fresh
                   (set_transformedPlan tp st))))).
Proof.
  intros Hinit Hcm Htf Heb Hpose Hfront Htransform Htp Hold Hend.
  rewrite (updateEBand_after_transform st cm tf eb eb1 robotPose tp fresh
             oldEnd newEnd) by done.
  split.
  - intros eb2 Hle Hopt. case_decide; [lia|].
    unfold ebandOptimizeBand, eband_call. run_member. rewrite Hcm; simpl.
    rewrite Hopt; simpl. reflexivity.
  - intros frames eb2 eb3 Hgt Hframes Hadd Hopt. case_decide; [|lia].
    unfold bind at 1. rewrite Hframes.
    unfold ebandAddFrames, ebandOptimizeBand, eband_call. run_member.
    rewrite Hcm; simpl. rewrite Hadd; simpl. rewrite Hcm; simpl.
    rewrite Hopt; simpl. reflexivity.
Qed.

(** The other way round: [updateEBand] returns true only when the
    relaxation it asks for at its end succeeded.  The call of
    [optimizeBand] is then the last event of the cycle, it answered true on
    the band [eb], and the band it left is the one kept. *)
Lemma updateEBand_true_relaxed st st' :
  updateEBand st = Ok (true, st') ->
  exists cm eb eb' events,
    costmapROS_ st' = Some cm /\
    eband_optimizeBand cm eb = (true, eb') /\
    ebandPlanner_ st' = Some eb' /\
    trace_ st' = CallEBandOptimizeBand :: events.
Proof.
  unfold_update. split_run.
  all: intros Hrun; apply Ok_pair_inj in Hrun; destruct Hrun as [_ <-]; simpl.
  all: repeat match goal with
              | Hb : negb ?b = false |- _ => destruct b; [clear Hb | discriminate Hb]
              | Hs : Some _ = Some _ |- _ => injection Hs as <-
              end.
  all: eauto 10.
Qed.

(** ** initialize and setPlan *)

(** What is left of [setPlan] on an initialized planner once the plan is
    stored and the transform has answered. *)
Lemma setPlan_after_transform st plan tf cm okT tp fresh :
  initialized_ st = true ->
  tfListener_ st = Some tf ->
  costmapROS_ st = Some cm ->
  transformGlobalPlan tf plan cm (getGlobalFrameID cm) (transformedPlan_ st)
    [to_int (size plan); to_int (size plan)] = (okT, tp, fresh) ->
  setPlan plan st
  = (if negb okT then
       ROS_LOG WARN "Could not transform global plan to the local frame";;;
       ret false
     else
       if empty_vec tp then ROS_LOG WARN "Transformed Plan is empty.";;; ret false
       else
         set1 <- ebandSetPlan tp;;
         if negb set1 then
           cm <- deref costmapROS_;;
           emit CallResetLayers;;;
           modify (set_costmapROS (Some (resetLayers cm)));;;
           set2 <- ebandSetPlan tp;;
           if negb set2 then
             ROS_LOG ERROR "Setting plan to Elastic Band failed!";;;
             ret false
           else
             modify (set_planStartEndCounters fresh);;;
             opt <- ebandOptimizeBand;;
             (if negb opt then ROS_LOG WARN "Optimization of eband failed!"
              else ret tt);;;
             ret true
         else
           modify (set_planStartEndCounters fresh);;;
           opt <- ebandOptimizeBand;;
           (if negb opt then ROS_LOG WARN "Optimization of eband failed!"
            else ret tt);;;
           ret true)
      (set_transformedPlan tp
         (set_trace (CallTransformGlobalPlan :: trace_ st)
            (set_globalPlan plan st))).
Proof.
  intros Hinit Htf Hcm Htransform.
  unfold setPlan at 1. unfold callTransformGlobalPlan.
  run_member. rewrite Hinit; simpl. rewrite Htf; simpl. rewrite Hcm; simpl.
  rewrite Htransform; simpl.
  destruct okT; [|reflexivity]. simpl. by destruct tp.
Qed.

(** C4, as the code has it.  The guard against a second call is in
    [initialize]: on an initialized planner it writes a warning and changes
    no member.  [setPlan] has no such guard.  On an initialized planner
    every call stores the plan it is given in [globalPlan_], whatever it
    answers, and runs the transform on that plan from the counters
    [(size, size)], with [transformedPlan_] taking what the transform wrote:
    - when the transform fails, or gives an empty plan, the call writes a
      warning and returns false, with the band and
      [planStartEndCounters_] as they were;
    - otherwise the transformed plan is handed to the band with [setPlan],
      and a call that returns true has put the counters of the transform
      in [planStartEndCounters_]. *)
Theorem setPlan_stores_plan :
  (forall st name tf cm,
      initialized_ st = true ->
      initialize name tf cm st
      = Ok (tt, set_trace
                  (Log WARN
                     "Planner already initialized. Should not be called more than once"
                   :: trace_ st) st)) /\
  (forall st plan ok st',
      initialized_ st = true ->
      setPlan plan st = Ok (ok, st') ->
      globalPlan_ st' = plan) /\
  (forall st plan tf cm okT tp fresh,
      initialized_ st = true ->
      tfListener_ st = Some tf ->
      costmapROS_ st = Some cm ->
      transformGlobalPlan tf plan cm (getGlobalFrameID cm) (transformedPlan_ st)
        [to_int (size plan); to_int (size plan)] = (okT, tp, fresh) ->
      (okT = false ->
       setPlan plan st
       = Ok (false,
             set_trace
               (Log WARN "Could not transform global plan to the local frame"
                  :: CallTransformGlobalPlan :: trace_ st)
               (set_transformedPlan tp (set_globalPlan plan st)))) /\
      (okT = true -> tp = [] ->
       setPlan plan st
       = Ok (false,
             set_trace
               (Log WARN "Transformed Plan is empty."
                  :: CallTransformGlobalPlan :: trace_ st)
               (set_transformedPlan [] (set_globalPlan plan st)))) /\
      (forall eb,
          okT = true -> tp <> [] -> ebandPlanner_ st = Some eb ->
          exists ok st' events,
            setPlan plan st = Ok (ok, st') /\
            globalPlan_ st' = plan /\
            transformedPlan_ st' = tp /\
            trace_ st' = events ++ CallEBandSetPlan tp
                                    :: CallTransformGlobalPlan :: trace_ st /\
            (ok = true -> planStartEndCounters_ st' = fresh))).
Proof.
  split; [|split].
  - intros st name tf cm Hinit. unfold initialize.
    unfold bind at 1. unfold gets. rewrite Hinit. reflexivity.
  - intros st plan ok st' Hinit.
    unfold setPlan, callTransformGlobalPlan, ebandSetPlan, ebandOptimizeBand,
      eband_call.
    run_member. rewrite Hinit; simpl. split_run.
    all: intros Hrun; apply Ok_pair_inj in Hrun; by destruct Hrun as [_ <-].
  - intros st plan tf cm okT tp fresh Hinit Htf Hcm Htransform.
    rewrite (setPlan_after_transform st plan tf cm okT tp fresh) by done.
    split; [|split].
    + intros ->. reflexivity.
    + intros -> ->. reflexivity.
    + intros eb -> Htp Heb. destruct tp as [|p tp']; [done|].
      set (tp := p :: tp') in *. simpl negb. cbv iota. simpl empty_vec. cbv iota.
      unfold ebandSetPlan, ebandOptimizeBand, eband_call. run_member.
      rewrite Heb; simpl. rewrite Hcm; simpl.
      destruct (eband_setPlan cm eb tp) as [[] eb1]; simpl.
      * rewrite Hcm; simpl.
        destruct (eband_optimizeBand cm eb1) as [[] eb2]; simpl.
        -- eexists _, _, [_]. split; [reflexivity|]. done.
        -- eexists _, _, [_; _]. split; [reflexivity|]. done.
      * rewrite Hcm; simpl.
        destruct (eband_setPlan (resetLayers cm) eb1 tp) as [[] eb2]; simpl.
        -- destruct (eband_optimizeBand (resetLayers cm) eb2) as [[] eb3]; simpl.
           ++ eexists _, _, [_; _; _]. split; [reflexivity|]. done.
           ++ eexists _, _, [_; _; _; _]. split; [reflexivity|]. done.
        -- eexists _, _, [_; _; _]. split; [reflexivity|]. done.
Qed.

End Properties.

(** * The properties on the scripted collaborators *)

Section ScriptedRuns.
Import Scripted.
#[local] Existing Instance collaborators.

(** The window from pose 5 to pose 10 of a plan of twenty poses, then the
    window from pose 5 to pose 14, as counters (15, 10) and (15, 6).  The
    new end, 14, is past the old start, 5, and [updateEBand] does not hand
    over the entire transformed plan: it hands over [path9] from its
    element 6, which is pose 11 of the plan, with 6 = (10 - 5) + 1 from the
    old end and the new start. *)
Lemma updateEBand_append_counterexample :
  exists st',
    size (globalPlan_ counters_15_10) = 20 /\
    planStartEndCounters_ counters_15_10 = [20 - 5; 20 - 10] /\
    transformedPlan_ st' = take 9 (drop 5 (globalPlan_ counters_15_10)) /\
    updateEBand counters_15_10 = Ok (true, st') /\
    planStartEndCounters_ st' = [20 - 5; 20 - 14] /\
    appended (trace_ st') = [drop 6 (transformedPlan_ st')] /\
    appended (trace_ st') <> [transformedPlan_ st'] /\
    drop 6 (transformedPlan_ st') = take 3 (drop 11 (globalPlan_ counters_15_10)).
Proof.
  eexists. split; [reflexivity|]. split; [reflexivity|].
  split; [|split; [vm_compute; reflexivity|]]; by vm_compute.
Qed.

Lemma updateEBand_append_witness :
  (exists ok st',
      updateEBand counters_20_15 = Ok (ok, st') /\
      appended (trace_ st') = [drop 3 path9]) /\
  (exists ok st',
      updateEBand counters_far = Ok (ok, st') /\
      appended (trace_ st') = [path9]) /\
  (exists ok st',
      updateEBand counters_15_10 = Ok (ok, st') /\
      appended (trace_ st') = [drop 6 path9]).
Proof.
  split; [|split].
  - unshelve epose proof
      (updateEBand_append counters_20_15 (Some robot)
         (true, path9, [17; 12]) band1
         (mkBand [robot; pose_at 7 5 0 0.5] true true) robot path9
         [17; 12] 15 17 12 _ _ _ _ _ _ _ _ _ _ _) as (_ & _ & Hpart);
      try solve [reflexivity | done].
    apply Hpart; solve [lia | by vm_compute].
  - unshelve epose proof
      (updateEBand_append counters_far (Some robot)
         (true, path9, [12; 9]) band1
         (mkBand [robot; pose_at 7 5 0 0.5] true true) robot path9
         [12; 9] 15 12 9 _ _ _ _ _ _ _ _ _ _ _) as (_ & Hwhole & _);
      try solve [reflexivity | done].
    apply Hwhole; lia.
  - unshelve epose proof
      (updateEBand_append counters_15_10 (Some robot)
         (true, path9, [15; 6]) band1
         (mkBand [robot; pose_at 7 5 0 0.5] true true) robot path9
         [15; 6] 10 15 6 _ _ _ _ _ _ _ _ _ _ _) as (_ & _ & Hpart);
      try solve [reflexivity | done].
    apply Hpart; solve [lia | by vm_compute].
Defined.

(** The relaxation fails and [updateEBand] returns false, not true. *)
Lemma updateEBand_relaxation_counterexample :
  exists st' events,
    updateEBand unrelaxed = Ok (false, st') /\
    trace_ st' = Log WARN "Failed to optimize eband!"
                 :: CallEBandOptimizeBand :: events /\
    updateEBand unrelaxed <> Ok (true, st').
Proof.
  eexists _, _. split; [vm_compute; reflexivity|].
  split; [vm_compute; reflexivity|]. by vm_compute.
Qed.

(** The window did not move and the relaxation fails; the window moved,
    [drop 3 path9] is appended and the relaxation fails. *)
Lemma updateEBand_relaxation_fatal_witness :
  (exists st',
     updateEBand unrelaxed_kept = Ok (false, st') /\
     trace_ st' = [Log WARN "Failed to optimize eband!"; CallEBandOptimizeBand;
                   CallTransformGlobalPlan;
                   CallEBandAddFrames [robot] add_front; CallGetRobotPose] /\
     ebandPlanner_ st' = Some (mkBand (robot :: [pose_at 7 5 0 0.5]) false true) /\
     planStartEndCounters_ st' = [20; 15]) /\
  (exists st',
     updateEBand unrelaxed = Ok (false, st') /\
     trace_ st' = [Log WARN "Failed to optimize eband!"; CallEBandOptimizeBand;
                   CallEBandAddFrames (drop 3 path9) add_back;
                   CallTransformGlobalPlan;
                   CallEBandAddFrames [robot] add_front; CallGetRobotPose] /\
     ebandPlanner_ st'
     = Some (mkBand (robot :: pose_at 7 5 0 0.5 :: drop 3 path9) false true) /\
     planStartEndCounters_ st' = [17; 12]).
Proof.
  split.
  - destruct (updateEBand_relaxation_fatal unrelaxed_kept (Some robot)
                (true, path9, [20; 15])
                (mkBand [pose_at 7 5 0 0.5] false true)
                (mkBand [robot; pose_at 7 5 0 0.5] false true)
                robot path9 [20; 15] 15 15) as [Hkept _]; try reflexivity.
    { by vm_compute. }
    eexists. split; [|].
    + apply (Hkept (mkBand [robot; pose_at 7 5 0 0.5] false true));
        [lia | reflexivity].
    + by vm_compute.
  - destruct (updateEBand_relaxation_fatal unrelaxed (Some robot)
                (true, path9, [17; 12])
                (mkBand [pose_at 7 5 0 0.5] false true)
                (mkBand [robot; pose_at 7 5 0 0.5] false true)
                robot path9 [17; 12] 15 12) as [_ Hmoved]; try reflexivity.
    { by vm_compute. }
    eexists. split; [|].
    + apply (Hmoved (drop 3 path9)
               (mkBand (robot :: pose_at 7 5 0 0.5 :: drop 3 path9) false true)
               (mkBand (robot :: pose_at 7 5 0 0.5 :: drop 3 path9) false true));
        [lia | intros s; reflexivity | reflexivity | reflexivity].
    + by vm_compute.
Defined.



Lemma interpolateOrientations_three_or_more_witness :
  exists out prev final,
    interpolateOrientations four_poses = Ok out /\
    length out = 4%nat /\
    out !! 0%nat = Some (pose_at 1 0 0 0.5) /\
    (exists p,
        out !! 1%nat = Some p /\
        Pose.orientation (PoseStamped.pose p)
        = createQuaternionMsgFromYaw (atan2 (1 - 0) (2 - 1)) /\
        Header.stamp (PoseStamped.header p) = Time.mk 1 0 /\
        Pose.position (PoseStamped.pose p) = Point.mk 1 0 0) /\
    out !! 2%nat = Some prev /\
    out !! 3%nat = Some final /\
    Header.stamp (PoseStamped.header final) = Time.mk 1 0 /\
    Pose.orientation (PoseStamped.pose final)
    = Pose.orientation (PoseStamped.pose prev).
Proof.
  destruct (interpolateOrientations_three_or_more four_poses)
    as (out & first & last & prev & final & Hrun & Hlen & Hfirst & Hlast
        & Hout0 & Hinner & Hprev & Hfinal & Hstamp & Horientation & _);
    [simpl; lia | by vm_compute |].
  injection Hfirst as <-. injection Hlast as <-.
  exists out, prev, final.
  split; [done|]. split; [done|]. split; [done|].
  split.
  { destruct (Hinner 1%nat (pose_at 2 1 0 0.25) (pose_at 3 2 1 0.125))
      as (p & Hp & Ho & Hs & Hpos & _); [simpl; lia | done | done |].
    exists p. by repeat split. }
  by repeat split.
Defined.

Lemma interpolateOrientations_out_of_range_witness :
  interpolateOrientations [pose_at 1 0 0 0] = Err OutOfRange.
Proof.
  apply interpolateOrientations_out_of_range. reflexivity.
Defined.

(** Two calls of [setPlan] in a row: the second one is carried out.  It
    replaces the global plan, runs the transform, sets the band and relaxes
    it, and writes no warning. *)
Lemma setPlan_twice_counterexample :
  exists st1 st2,
    setPlan path9 no_plan = Ok (true, st1) /\
    setPlan other_plan st1 = Ok (true, st2) /\
    globalPlan_ st1 = path9 /\
    globalPlan_ st2 = other_plan /\
    globalPlan_ st2 <> globalPlan_ st1 /\
    trace_ st2 = [CallEBandOptimizeBand; CallEBandSetPlan path9;
                  CallTransformGlobalPlan] ++ trace_ st1.
Proof.
  eexists _, _. split; [vm_compute; reflexivity|].
  split; [vm_compute; reflexivity|]. by vm_compute.
Qed.

Lemma setPlan_stores_plan_witness :
  initialize "rsband" (true, path9, [0; 9]) (Some robot) no_plan
  = Ok (tt, set_trace
              (Log WARN
                 "Planner already initialized. Should not be called more than once"
               :: trace_ no_plan) no_plan) /\
  globalPlan_ (after (setPlan other_plan no_plan) no_plan) = other_plan /\
  setPlan other_plan untransformed
  = Ok (false,
        set_trace
          [Log WARN "Could not transform global plan to the local frame";
           CallTransformGlobalPlan]
          (set_transformedPlan [pose_at 7 5 0 0.5]
             (set_globalPlan other_plan untransformed))) /\
  (exists ok st' events,
     setPlan other_plan no_plan = Ok (ok, st') /\
     globalPlan_ st' = other_plan /\
     transformedPlan_ st' = path9 /\
     trace_ st' = events ++ [CallEBandSetPlan path9; CallTransformGlobalPlan] /\
     (ok = true -> planStartEndCounters_ st' = [0; 9])).
Proof.
  split; [|split; [|split]].
  - apply (proj1 setPlan_stores_plan). reflexivity.
  - apply (proj1 (proj2 setPlan_stores_plan) no_plan other_plan true).
    + reflexivity.
    + vm_compute. reflexivity.
  - destruct (proj2 (proj2 setPlan_stores_plan) untransformed other_plan
                (false, [pose_at 7 5 0 0.5], [3; 4]) (Some robot)
                false [pose_at 7 5 0 0.5] [3; 4]
                eq_refl eq_refl eq_refl eq_refl) as (Hfails & _).
    apply Hfails. reflexivity.
  - destruct (proj2 (proj2 setPlan_stores_plan) no_plan other_plan
                (true, path9, [0; 9]) (Some robot) true path9 [0; 9]
                eq_refl eq_refl eq_refl eq_refl) as (_ & _ & Hband).
    apply (Hband band1); [reflexivity | by vm_compute | reflexivity].
Defined.

Lemma isGoalReached_strict_witness :
  exists reached st',
    isGoalReached at_tolerance = Ok (reached, st') /\
    (reached = true <->
     (distance (pose_at 7 12.5 0 0.5) 13 0 <? xyGoalTolerance_ at_tolerance)%float
     = true /\
     (PrimFloat.abs (0.5 - 0.5) <? yawGoalTolerance_ at_tolerance)%float = true) /\
    (distance (pose_at 7 12.5 0 0.5) 13 0 = xyGoalTolerance_ at_tolerance \/
     (distance (pose_at 7 12.5 0 0.5) 13 0 =? xyGoalTolerance_ at_tolerance)%float
     = true ->
     reached = false).
Proof.
  apply (isGoalReached_strict at_tolerance (Some (pose_at 7 12.5 0 0.5))
           (pose_at 7 12.5 0 0.5) (pose_at 7 13 0 0.5));
    by vm_compute.
Defined.

Lemma isGoalReached_empty_plan_witness :
  isGoalReached no_plan = Err OutOfRange /\
  (initialize "rsband" (true, path9, [0; 9]) (Some robot);;; isGoalReached)
    (constructed 0 0 0)
  = Err OutOfRange.
Proof.
  split.
  - apply (proj1 isGoalReached_empty_plan no_plan (Some robot) robot);
      reflexivity.
  - apply (proj2 isGoalReached_empty_plan) with (robotPose := robot).
    reflexivity.
Defined.

Lemma computeVelocityCommands_goal_reached_witness :
  computeVelocityCommands some_command arrived
  = Ok ((true, stop_command some_command),
        after (isGoalReached arrived) arrived) /\
  Vector3.x (Twist.linear (stop_command some_command)) = 0%float /\
  Vector3.y (Twist.linear (stop_command some_command)) = 0%float /\
  Vector3.z (Twist.angular (stop_command some_command)) = 0%float /\
  after (isGoalReached arrived) arrived
  = set_trace (Log INFO "Goal Reached!" :: CallGetRobotPose :: trace_ arrived)
      arrived.
Proof.
  apply (computeVelocityCommands_goal_reached arrived
           (after (isGoalReached arrived) arrived) some_command).
  vm_compute. reflexivity.
Defined.

(** The two sides of the tolerance: at a distance of exactly 0.5 the goal is
    not reached, on the goal it is. *)
Lemma isGoalReached_boundary :
  goalDistance (pose_at 7 12.5 0 0.5) (pose_at 7 13 0 0.5)
  = xyGoalTolerance_ at_tolerance /\
  (exists st', isGoalReached at_tolerance = Ok (false, st')) /\
  (exists st', isGoalReached arrived = Ok (true, st')).
Proof.
  split; [reflexivity|].
  split; eexists; vm_compute; reflexivity.
Qed.

Lemma updateEBand_not_atomic_witness :
  exists st',
    updateEBand untransformed = Ok (false, st') /\
    ebandPlanner_ st' = Some (mkBand [robot; pose_at 7 5 0 0.5] true true) /\
    transformedPlan_ st' = [pose_at 7 5 0 0.5] /\
    planStartEndCounters_ st' = planStartEndCounters_ untransformed /\
    globalPlan_ st' = globalPlan_ untransformed.
Proof.
  apply (updateEBand_not_atomic untransformed (Some robot)
           (false, [pose_at 7 5 0 0.5], [3; 4]) band1
           (mkBand [robot; pose_at 7 5 0 0.5] true true) robot false
           [pose_at 7 5 0 0.5] [3; 4]);
    try reflexivity.
  by left.
Defined.

End ScriptedRuns.

(** * Further properties of the member functions *)

Section Guards.
Context `{Collaborators}.

#[local] Arguments at_ : simpl never.
#[local] Arguments to_int : simpl never.
#[local] Arguments to_unsigned : simpl never.
#[local] Arguments to_size_t : simpl never.
#[local] Arguments slice_from : simpl never.
#[local] Arguments interpolateOrientations : simpl never.
#[local] Arguments mergeLeftOut : simpl never.

Ltac run_monad :=
  unfold bind, gets, deref, ret, modify, emit, ROS_LOG, checked, fault, lift;
  simpl.

(** Case analysis on what the run in the goal looks at next, innermost
    first; [tac] closes the branches that cannot be. *)
Ltac cases_of_run tac :=
  repeat match goal with
         | |- context [match ?x with _ => _ end] =>
             lazymatch x with
             | context [match _ with _ => _ end] => fail
             | _ => destruct x eqn:?; simpl; try tac
             end
         end.

Ltac end_of_run Hrun :=
  intros Hrun; apply Ok_pair_inj in Hrun; destruct Hrun as [Hanswer <-].

(** X1: before [initialize], [setPlan], [isGoalReached], [updateEBand] and
    [computeVelocityCommands] return false, write one log line and leave
    every member, and the command, as they were. *)
Theorem not_initialized_rejected st plan cmd :
  initialized_ st = false ->
  setPlan plan st
  = Ok (false,
        set_trace (Log ERROR "Planner must be initialized before setPlan is called!"
                   :: trace_ st) st) /\
  isGoalReached st
  = Ok (false,
        set_trace
          (Log ERROR "Planner must be initialized before isGoalReached is called!"
           :: trace_ st) st) /\
  updateEBand st
  = Ok (false,
        set_trace
          (Log WARN "Planner must be initialized before updateEBand is called!"
           :: trace_ st) st) /\
  computeVelocityCommands cmd st
  = Ok ((false, cmd),
        set_trace
          (Log ERROR
             "Planner must be initialized before computeVelocityCommands is called!"
           :: trace_ st) st).
Proof.
  intros Hinit. repeat split.
  - unfold setPlan. unfold bind at 1. unfold gets. by rewrite Hinit.
  - unfold isGoalReached. unfold bind at 1. unfold gets. by rewrite Hinit.
  - unfold updateEBand. unfold bind at 1. unfold gets. by rewrite Hinit.
  - unfold computeVelocityCommands. unfold bind at 1. unfold gets.
    by rewrite Hinit.
Qed.

(** X2: [isGoalReached] only reads: whatever it answers, the planner it
    leaves differs from the one it found in the trace alone. *)
Theorem isGoalReached_reads_only st reached st' :
  isGoalReached st = Ok (reached, st') ->
  st' = set_trace (trace_ st') st.
Proof.
  unfold isGoalReached. run_monad.
  cases_of_run ltac:(intros; discriminate).
  all: end_of_run Hrun; destruct st; reflexivity.
Qed.

(** ** setPlan *)

Ltac unfold_setPlan :=
  unfold setPlan, callTransformGlobalPlan, ebandSetPlan, ebandOptimizeBand,
    eband_call;
  run_monad.


(** X4: in [setPlan] a relaxation that fails is not fatal.  With the
    transform answering true with a plan that is not empty and the band
    accepting it, [setPlan] answers true whatever [optimizeBand] answers; a
    failed relaxation is logged as a warning, and the counters of the
    transform are kept all the same. *)
Theorem setPlan_relaxation_not_fatal st plan tf cm eb tp fresh eb1 relaxed eb2 :
  initialized_ st = true ->
  tfListener_ st = Some tf ->
  costmapROS_ st = Some cm ->
  ebandPlanner_ st = Some eb ->
  transformGlobalPlan tf plan cm (getGlobalFrameID cm) (transformedPlan_ st)
    [to_int (size plan); to_int (size plan)] = (true, tp, fresh) ->
  tp <> [] ->
  eband_setPlan cm eb tp = (true, eb1) ->
  eband_optimizeBand cm eb1 = (relaxed, eb2) ->
  exists st' events,
    setPlan plan st = Ok (true, st') /\
    ebandPlanner_ st' = Some eb2 /\
    planStartEndCounters_ st' = fresh /\
    transformedPlan_ st' = tp /\
    trace_ st' = events ++ CallEBandOptimizeBand :: CallEBandSetPlan tp
                 :: CallTransformGlobalPlan :: trace_ st /\
    events = if relaxed then []
             else [Log WARN "Optimization of eband failed!"].
Proof.
  intros Hinit Htf Hcm Heb Htransform Htp Hset Hrelax.
  unfold_setPlan.
  rewrite Hinit; simpl. rewrite Htf; simpl. rewrite Hcm; simpl.
  rewrite Htransform; simpl.
  destruct tp as [|p tp']; [done|]. simpl.
  rewrite Heb; simpl. rewrite Hcm; simpl. rewrite Hset; simpl.
  rewrite Hcm; simpl. rewrite Hrelax; simpl.
  destruct relaxed; simpl;
    [eexists _, [] | eexists _, [Log WARN "Optimization of eband failed!"]];
    (split; [reflexivity|]); done.
Qed.

(** X5: the one retry of [setPlan].  When the band rejects the transformed
    plan, the layers of the costmap are reset and the band is asked once
    more, on the costmap as reset.  A second rejection makes [setPlan]
    answer false, with an error logged and the counters left as they were;
    an acceptance makes it go on to the relaxation and answer true. *)
Theorem setPlan_retries_once st plan tf cm eb tp fresh eb1 accepted eb2 :
  initialized_ st = true ->
  tfListener_ st = Some tf ->
  costmapROS_ st = Some cm ->
  ebandPlanner_ st = Some eb ->
  transformGlobalPlan tf plan cm (getGlobalFrameID cm) (transformedPlan_ st)
    [to_int (size plan); to_int (size plan)] = (true, tp, fresh) ->
  tp <> [] ->
  eband_setPlan cm eb tp = (false, eb1) ->
  eband_setPlan (resetLayers cm) eb1 tp = (accepted, eb2) ->
  exists st',
    setPlan plan st = Ok (accepted, st') /\
    costmapROS_ st' = Some (resetLayers cm) /\
    (accepted = false ->
     ebandPlanner_ st' = Some eb2 /\
     planStartEndCounters_ st' = planStartEndCounters_ st /\
     trace_ st' = Log ERROR "Setting plan to Elastic Band failed!"
                  :: CallEBandSetPlan tp :: CallResetLayers
                  :: CallEBandSetPlan tp :: CallTransformGlobalPlan
                  :: trace_ st) /\
    (accepted = true ->
     planStartEndCounters_ st' = fresh /\
     exists relaxed eb3,
       eband_optimizeBand (resetLayers cm) eb2 = (relaxed, eb3) /\
       ebandPlanner_ st' = Some eb3).
Proof.
  intros Hinit Htf Hcm Heb Htransform Htp Hset1 Hset2.
  unfold_setPlan.
  rewrite Hinit; simpl. rewrite Htf; simpl. rewrite Hcm; simpl.
  rewrite Htransform; simpl.
  destruct tp as [|p tp']; [done|]. simpl.
  rewrite Heb; simpl. rewrite Hcm; simpl. rewrite Hset1; simpl.
  rewrite Hcm; simpl. rewrite Hset2; simpl.
  destruct accepted; simpl.
  - destruct (eband_optimizeBand (resetLayers cm) eb2) as [[] eb3] eqn:Hrelax;
      simpl; eexists; (split; [reflexivity|]); simpl;
      (split; [reflexivity|]); (split; [done|]); eauto.
  - eexists. split; [reflexivity|]. simpl. done.
Qed.


(** ** updateEBand *)

Ltac unfold_updateEBand :=
  unfold updateEBand, planToAppend, ebandAddFrames, ebandOptimizeBand,
    eband_call, callTransformGlobalPlan;
  run_monad.

(** X7: [updateEBand] works on the band, [transformedPlan_] and
    [planStartEndCounters_] only: whatever it answers, the global plan, the
    configuration and the other collaborators are the ones it found. *)
Theorem updateEBand_keeps_global_plan st ok st' :
  updateEBand st = Ok (ok, st') ->
  globalPlan_ st' = globalPlan_ st /\
  initialized_ st' = initialized_ st /\
  tfListener_ st' = tfListener_ st /\
  costmapROS_ st' = costmapROS_ st /\
  rsbandPlanner_ st' = rsbandPlanner_ st /\
  ptc_ st' = ptc_ st /\
  eband2RSStrategy_ st' = eband2RSStrategy_ st /\
  xyGoalTolerance_ st' = xyGoalTolerance_ st /\
  yawGoalTolerance_ st' = yawGoalTolerance_ st.
Proof.
  unfold_updateEBand. cases_of_run ltac:(intros; discriminate).
  all: end_of_run Hrun; simpl.
  all: repeat split; congruence.
Qed.


(** X9: the two early ways out of [updateEBand].  Without a robot pose it
    answers false and no member changes.  When the band rejects the robot
    pose at its front it answers false at once: the transform is not
    called, [transformedPlan_] and the counters stay, and the band is as
    the rejected call left it. *)
Theorem updateEBand_early_failures st cm :
  initialized_ st = true ->
  costmapROS_ st = Some cm ->
  (getRobotPose cm = None ->
   updateEBand st
   = Ok (false,
         set_trace (Log ERROR "Could not get robot pose!" :: CallGetRobotPose
                    :: trace_ st) st)) /\
  (forall robotPose eb eb1,
      getRobotPose cm = Some robotPose ->
      ebandPlanner_ st = Some eb ->
      eband_addFrames cm eb [poseStampedTFToMsg robotPose] add_front
      = (false, eb1) ->
      updateEBand st
      = Ok (false,
            set_trace
              (Log WARN "Could not connect current robot pose to existing eband!"
               :: CallEBandAddFrames [poseStampedTFToMsg robotPose] add_front
               :: CallGetRobotPose :: trace_ st)
              (set_ebandPlanner (Some eb1) st))).
Proof.
  intros Hinit Hcm. split.
  - intros Hpose. unfold_updateEBand.
    rewrite Hinit; simpl. rewrite Hcm; simpl. by rewrite Hpose.
  - intros robotPose eb eb1 Hpose Heb Hfront. unfold_updateEBand.
    rewrite Hinit; simpl. rewrite Hcm; simpl. rewrite Hpose; simpl.
    rewrite Heb; simpl. rewrite Hcm; simpl. by rewrite Hfront.
Qed.

(** X10: [updateEBand] indexes the counters without looking at their
    size.  When the persisted counters, or the ones the transform gives
    back, have fewer than two elements (the persisted ones are empty until
    a [setPlan] has succeeded), the comparison of the end counters reads
    outside the vector. *)
Theorem updateEBand_counters_out_of_range st cm tf eb eb1 robotPose tp fresh :
  initialized_ st = true ->
  costmapROS_ st = Some cm ->
  tfListener_ st = Some tf ->
  ebandPlanner_ st = Some eb ->
  getRobotPose cm = Some robotPose ->
  eband_addFrames cm eb [poseStampedTFToMsg robotPose] add_front = (true, eb1) ->
  transformGlobalPlan tf (globalPlan_ st) cm (getGlobalFrameID cm)
    (transformedPlan_ st) (planStartEndCounters_ st) = (true, tp, fresh) ->
  tp <> [] ->
  size (planStartEndCounters_ st) < 2 \/ size fresh < 2 ->
  updateEBand st = Err OutOfRange.
Proof.
  intros Hinit Hcm Htf Heb Hpose Hfront Htransform Htp Hshort.
  unfold updateEBand at 1.
  unfold ebandAddFrames at 1, eband_call at 1, callTransformGlobalPlan.
  run_monad.
  rewrite Hinit; simpl. rewrite Hcm; simpl. rewrite Hpose; simpl.
  rewrite Heb; simpl. rewrite Hcm; simpl. rewrite Hfront; simpl.
  rewrite Htf; simpl. rewrite Hcm; simpl. rewrite Htransform; simpl.
  destruct tp as [|p tp']; [done|]. simpl.
  destruct (at_ (planStartEndCounters_ st) 1) as [oldEnd|] eqn:Hold;
    simpl; [|done].
  destruct (at_ fresh 1) as [newEnd|] eqn:Hnew; simpl; [|done].
  exfalso. destruct Hshort as [Hshort|Hshort].
  - rewrite at_outside in Hold by lia. done.
  - rewrite at_outside in Hnew by lia. done.
Qed.

End Guards.

Section Interpolation.
Context `{Collaborators}.

(** ** interpolateOrientations moves no pose *)

Lemma at_Some {A} (v : list A) (i : Z) (x : A) :
  at_ v i = Some x -> v !! Z.to_nat i = Some x.
Proof. unfold at_. by case_decide. Qed.

Lemma same_place_refl p : same_place p p.
Proof. done. Qed.

Lemma same_place_trans p q r : same_place p q -> same_place q r -> same_place p r.
Proof. unfold same_place. intros (-> & -> & ->) (-> & -> & ->). done. Qed.

Lemma same_place_with_stamp t p : same_place p (with_stamp t p).
Proof. done. Qed.

Lemma same_place_with_orientation q p : same_place p (with_orientation q p).
Proof. done. Qed.

Lemma Forall2_same_place_refl (plan : Plan) : Forall2 same_place plan plan.
Proof. induction plan; constructor; done. Qed.

Lemma Forall2_same_place_trans (a b c : Plan) :
  Forall2 same_place a b -> Forall2 same_place b c -> Forall2 same_place a c.
Proof.
  intros Hab. revert c. induction Hab as [|x y a b Hxy Hab IH]; intros c Hbc.
  - by inversion Hbc.
  - inversion Hbc as [|y' z b' c' Hyz Hbc']; subst.
    constructor; [by eapply same_place_trans | by apply IH].
Qed.

Lemma assign_at_same_place (plan : Plan) (i : Z) cur new :
  at_ plan i = Some cur -> same_place cur new ->
  Forall2 same_place plan (assign_at plan i new).
Proof.
  intros Hcur Hnew. apply at_Some in Hcur. unfold assign_at.
  rewrite <- (list_insert_id plan (Z.to_nat i) cur) at 1 by done.
  apply Forall2_insert; [apply Forall2_same_place_refl | done].
Qed.

Lemma interpolate_step_same_place (plan plan' : Plan) (i : Z) :
  interpolate_step plan i = Some plan' -> Forall2 same_place plan plan'.
Proof.
  unfold interpolate_step.
  destruct (at_ plan (to_unsigned (i + 1))) as [next|]; [|done].
  destruct (at_ plan i) as [cur|] eqn:Hcur; [|done]. cbn zeta.
  match goal with
  | |- context [assign_at plan i ?p] => set (cur' := p)
  end.
  set (plan1 := assign_at plan i cur').
  destruct (front plan1) as [first|]; simpl; [|done].
  destruct (at_ plan1 i) as [cur1|] eqn:Hcur1; simpl; [|done].
  intros [= <-].
  eapply Forall2_same_place_trans.
  - apply (assign_at_same_place plan i cur cur'); [done|].
    apply same_place_with_orientation.
  - apply (assign_at_same_place plan1 i cur1); [done|].
    apply same_place_with_stamp.
Qed.

Lemma interpolate_loop_same_place (fuel : nat) :
  forall (i : Z) (plan out : Plan),
    interpolate_loop fuel i plan = Ok out -> Forall2 same_place plan out.
Proof.
  induction fuel as [|fuel IH]; intros i plan out; cbn [interpolate_loop].
  - case_decide; [done|]. intros [= <-]. apply Forall2_same_place_refl.
  - case_decide.
    + destruct (interpolate_step plan i) as [plan'|] eqn:Hstep; [|done].
      intros Hloop. eapply Forall2_same_place_trans.
      * by eapply interpolate_step_same_place.
      * by eapply IH.
    + intros [= <-]. apply Forall2_same_place_refl.
Qed.

Lemma interpolate_last_same_place (plan out : Plan) :
  interpolate_last plan = Ok out -> Forall2 same_place plan out.
Proof.
  unfold interpolate_last.
  destruct (back plan) as [last|] eqn:Hlast; [|done].
  destruct (front plan) as [first|]; [|done]. cbn zeta.
  set (last1 := with_stamp (stamp_of first) last).
  set (plan1 := assign_at plan (size plan - 1) last1).
  assert (Hplan1 : Forall2 same_place plan plan1).
  { apply (assign_at_same_place plan _ last); [done|].
    apply same_place_with_stamp. }
  destruct (unset_orientation (orientation_of last1)).
  - destruct (at_ plan1 (to_size_t (size plan1 - 2))) as [prev|]; [|done].
    intros [= <-]. eapply Forall2_same_place_trans; [exact Hplan1|].
    assert (Hback : at_ plan1 (size plan1 - 1) = Some last1).
    { assert (Hn : size plan - 1 = Z.of_nat (length plan - 1)).
      { unfold size. destruct plan; [done | simpl; lia]. }
      assert (Hlen : (length plan - 1 < length plan)%nat).
      { destruct plan; [done | simpl; lia]. }
      unfold plan1 at 2. unfold size at 1, assign_at at 1.
      rewrite length_insert. fold (size plan). rewrite Hn, at_nat.
      unfold plan1. rewrite Hn, assign_at_nat.
      by apply list_lookup_insert_eq. }
    apply (assign_at_same_place plan1 _ last1); [done|].
    apply same_place_with_orientation.
  - by intros [= <-].
Qed.

Lemma interpolateOrientations_places (plan out : Plan) :
  interpolateOrientations plan = Ok out -> Forall2 same_place plan out.
Proof.
  unfold interpolateOrientations.
  destruct (interpolate_loop (S (length plan)) 1 plan) as [mid|] eqn:Hloop;
    [|done].
  intros Hlast. eapply Forall2_same_place_trans.
  - by eapply interpolate_loop_same_place.
  - by apply interpolate_last_same_place.
Qed.

(** X11: [interpolateOrientations] moves no pose.  Whenever it returns, the
    plan it returns has as many poses as the plan given, and each pose has
    the position, the frame and the sequence number it had: the
    orientations and the stamps are all that can change. *)
Theorem interpolateOrientations_same_places (plan out : Plan) :
  interpolateOrientations plan = Ok out ->
  length out = length plan /\ Forall2 same_place plan out.
Proof.
  intros Hrun. apply interpolateOrientations_places in Hrun.
  split; [|done]. symmetry. by eapply Forall2_length.
Qed.

(** ** interpolateOrientations, pose by pose *)

(** The result on one pose and on two poses, when there is one. *)
Lemma interpolateOrientations_one (p : PoseStamped.t) (out : Plan) :
  interpolateOrientations [p] = Ok out -> out = [p].
Proof.
  unfold interpolateOrientations.
  rewrite interpolate_loop_short by (simpl; lia).
  unfold interpolate_last.
  rewrite back_lookup, front_lookup by done.
  unfold assign_at, size. simpl.
  destruct (unset_orientation _); [done|].
  intros [= <-]. by rewrite with_stamp_same.
Qed.

Lemma interpolateOrientations_two (p0 p1 : PoseStamped.t) :
  interpolateOrientations [p0; p1]
  = Ok [p0; if unset_orientation (orientation_of p1)
            then with_orientation (orientation_of p0)
                   (with_stamp (stamp_of p0) p1)
            else with_stamp (stamp_of p0) p1].
Proof.
  unfold interpolateOrientations.
  rewrite interpolate_loop_short by (simpl; lia).
  unfold interpolate_last.
  rewrite back_lookup, front_lookup by done.
  unfold assign_at, size. simpl.
  change (orientation_of (with_stamp (stamp_of p0) p1))
    with (orientation_of p1).
  by destruct (unset_orientation (orientation_of p1)).
Qed.

(** The result on three poses and more, as far as an [unsigned int]
    counts: the pose at each index. *)
Lemma interpolateOrientations_long (plan : Plan) :
  (3 <= length plan)%nat -> size plan <= 2 ^ 32 ->
  exists out first last prev,
    interpolateOrientations plan = Ok out /\
    length out = length plan /\
    plan !! 0%nat = Some first /\
    plan !! (length plan - 1)%nat = Some last /\
    out !! 0%nat = Some first /\
    (forall i cur next,
        (1 <= i < length plan - 1)%nat ->
        plan !! i = Some cur -> plan !! S i = Some next ->
        out !! i = Some (interpolated first cur next)) /\
    out !! (length plan - 2)%nat = Some prev /\
    out !! (length plan - 1)%nat
    = Some (if unset_orientation (orientation_of last)
            then with_orientation (orientation_of prev)
                   (with_stamp (stamp_of first) last)
            else with_stamp (stamp_of first) last).
Proof.
  intros Hlen Hsize. unfold size in Hsize.
  set (n := length plan) in *.
  destruct (interpolate_loop_inside (S n) 1 plan)
    as (mid & Hmid & Hlen' & Hsame & Hnew);
    [fold n; lia | unfold size; fold n; lia | fold n; lia |].
  fold n in Hlen', Hsame, Hnew.
  destruct (lookup_lt_is_Some_2 plan 0%nat) as [first Hfirst]; [fold n; lia|].
  destruct (lookup_lt_is_Some_2 plan (n - 1)%nat) as [last Hlast]; [fold n; lia|].
  destruct (lookup_lt_is_Some_2 plan (n - 2)%nat) as [cur Hcur]; [fold n; lia|].
  assert (Hprev : mid !! (n - 2)%nat = Some (interpolated first cur last)).
  { apply Hnew; [lia | done | done |].
    by replace (S (n - 2)) with (n - 1)%nat by lia. }
  assert (Hmid_last : mid !! (n - 1)%nat = Some last)
    by (rewrite Hsame by lia; done).
  assert (Hmid_first : mid !! 0%nat = Some first)
    by (rewrite Hsame by lia; done).
  assert (Hnonempty : mid <> []) by (intros ->; simpl in Hlen'; lia).
  set (last1 := with_stamp (stamp_of first) last).
  set (prev := interpolated first cur last) in *.
  exists (<[(n - 1)%nat :=
             if unset_orientation (orientation_of last)
             then with_orientation (orientation_of prev) last1 else last1]> mid),
    first, last, prev.
  split.
  { unfold interpolateOrientations. fold n.
    change 1 with (Z.of_nat 1) at 1. rewrite Hmid.
    unfold interpolate_last.
    rewrite back_lookup, front_lookup, Hlen', Hmid_last, Hmid_first by done.
    fold last1.
    change (orientation_of last1) with (orientation_of last).
    unfold size. rewrite Hlen'.
    replace (Z.of_nat n - 1) with (Z.of_nat (n - 1)) by lia.
    rewrite assign_at_nat.
    destruct (unset_orientation (orientation_of last)); [|done].
    rewrite length_insert, Hlen'.
    rewrite to_size_t_small by lia.
    replace (Z.of_nat n - 2) with (Z.of_nat (n - 2)) by lia.
    replace (Z.of_nat n - 1) with (Z.of_nat (n - 1)) by lia.
    rewrite at_nat, list_lookup_insert_ne by lia.
    rewrite Hprev, assign_at_nat, list_insert_insert_eq. done. }
  split; [by rewrite length_insert|].
  split; [done|]. split; [done|].
  split; [by rewrite list_lookup_insert_ne by lia|].
  split.
  { intros i c nx Hi Hc Hnx. rewrite list_lookup_insert_ne by lia.
    by apply Hnew. }
  split; [by rewrite list_lookup_insert_ne by lia|].
  by rewrite list_lookup_insert_eq by lia.
Qed.

Lemma interpolated_again first cur next next' :
  position_of next' = position_of next ->
  interpolated first (interpolated first cur next) next'
  = interpolated first cur next.
Proof.
  intros Hnext. unfold interpolated, with_stamp, with_orientation, position_of in *.
  simpl. by rewrite Hnext.
Qed.

(** X12: one planning instant.  On a plan that is not empty (and no longer
    than an [unsigned int] counts), every pose of the plan that
    [interpolateOrientations] returns carries the stamp of the first pose
    of the plan given. *)
Theorem interpolateOrientations_one_stamp (plan out : Plan) first :
  size plan <= 2 ^ 32 ->
  plan !! 0%nat = Some first ->
  interpolateOrientations plan = Ok out ->
  Forall (fun p => stamp_of p = stamp_of first) out.
Proof.
  intros Hsize Hfirst Hrun.
  destruct plan as [|p0 [|p1 [|p2 rest]]].
  - done.
  - apply interpolateOrientations_one in Hrun as ->.
    injection Hfirst as ->. by repeat constructor.
  - rewrite interpolateOrientations_two in Hrun. injection Hrun as <-.
    injection Hfirst as ->.
    repeat constructor. by destruct (unset_orientation _).
  - destruct (interpolateOrientations_long (p0 :: p1 :: p2 :: rest))
      as (out' & first' & last & prev & Hrun' & Hlen & Hfirst' & Hlast
          & Hout0 & Hinner & Hprev & Hout_last);
      [simpl; lia | done |].
    rewrite Hrun in Hrun'. injection Hrun' as <-.
    rewrite Hfirst in Hfirst'. injection Hfirst' as <-.
    set (plan := p0 :: p1 :: p2 :: rest) in *.
    apply Forall_lookup. intros i p Hp.
    pose proof (lookup_lt_Some _ _ _ Hp) as Hi. rewrite Hlen in Hi.
    destruct (decide (i = 0%nat)) as [->|Hi0]; [congruence|].
    destruct (decide (i = length plan - 1)%nat) as [->|Hin].
    + rewrite Hout_last in Hp. injection Hp as <-.
      by destruct (unset_orientation _).
    + destruct (lookup_lt_is_Some_2 plan i) as [cur Hcur]; [lia|].
      destruct (lookup_lt_is_Some_2 plan (S i)) as [next Hnext]; [lia|].
      rewrite (Hinner i cur next) in Hp by (done || lia).
      by injection Hp as <-.
Qed.

(** X13: [interpolateOrientations] is idempotent.  Run on a plan it has
    returned (of no more poses than an [unsigned int] counts), it returns
    that plan again. *)
Theorem interpolateOrientations_idempotent (plan out : Plan) :
  size plan <= 2 ^ 32 ->
  interpolateOrientations plan = Ok out ->
  interpolateOrientations out = Ok out.
Proof.
  intros Hsize Hrun.
  destruct plan as [|p0 [|p1 [|p2 rest]]].
  - done.
  - pose proof (interpolateOrientations_one _ _ Hrun) as Hout.
    by subst out.
  - rewrite interpolateOrientations_two in Hrun. injection Hrun as <-.
    rewrite interpolateOrientations_two. f_equal. f_equal.
    destruct (unset_orientation (orientation_of p1)) eqn:Hp1.
    + change (orientation_of (with_orientation (orientation_of p0)
                                (with_stamp (stamp_of p0) p1)))
        with (orientation_of p0).
      by destruct (unset_orientation (orientation_of p0)).
    + change (orientation_of (with_stamp (stamp_of p0) p1))
        with (orientation_of p1).
      by rewrite Hp1.
  - pose proof (interpolateOrientations_places _ _ Hrun) as Hplaces.
    destruct (interpolateOrientations_long (p0 :: p1 :: p2 :: rest))
      as (out' & first & last & prev & Hrun' & Hlen & Hfirst & Hlast
          & Hout0 & Hinner & Hprev & Hout_last);
      [simpl; lia | done |].
    rewrite Hrun in Hrun'. injection Hrun' as <-.
    set (plan := p0 :: p1 :: p2 :: rest) in *.
    assert (Hlen3 : (3 <= length plan)%nat) by (simpl; lia).
    destruct (interpolateOrientations_long out)
      as (out2 & first2 & last2 & prev2 & Hrun2 & Hlen2 & Hfirst2 & Hlast2
          & Hout20 & Hinner2 & Hprev2 & Hout2_last);
      [lia | unfold size in *; lia |].
    rewrite Hlen in *.
    rewrite Hout0 in Hfirst2. injection Hfirst2 as <-.
    rewrite Hout_last in Hlast2. injection Hlast2 as <-.
    assert (Hinner_same : forall i, (1 <= i < length plan - 1)%nat ->
                                    out2 !! i = out !! i).
    { intros i Hi.
      destruct (lookup_lt_is_Some_2 plan i) as [cur Hcur]; [lia|].
      destruct (lookup_lt_is_Some_2 plan (S i)) as [next Hnext]; [lia|].
      destruct (lookup_lt_is_Some_2 out (S i)) as [next' Hnext']; [lia|].
      pose proof (Hinner i cur next Hi Hcur Hnext) as Hi_out.
      rewrite (Hinner2 i _ next' Hi Hi_out Hnext'), Hi_out.
      f_equal. apply interpolated_again.
      symmetry. eapply (Forall2_lookup_lr _ _ _ (S i)) in Hplaces; [|done..].
      apply Hplaces. }
    rewrite Hinner_same, Hprev in Hprev2 by lia. injection Hprev2 as <-.
    rewrite Hrun2. f_equal. apply list_eq. intros i.
    destruct (decide (i = 0%nat)) as [->|Hi0]; [congruence|].
    destruct (decide (i < length plan - 1)%nat); [apply Hinner_same; lia|].
    destruct (decide (i = length plan - 1)%nat) as [->|Hi].
    + rewrite Hout2_last, Hout_last. f_equal.
      destruct (unset_orientation (orientation_of last)) eqn:Hunset.
      * change (orientation_of (with_orientation (orientation_of prev)
                                  (with_stamp (stamp_of first) last)))
          with (orientation_of prev).
        by destruct (unset_orientation (orientation_of prev)).
      * change (orientation_of (with_stamp (stamp_of first) last))
          with (orientation_of last).
        by rewrite Hunset.
    + rewrite !lookup_ge_None_2 by lia. done.
Qed.

End Interpolation.

Section Stitching.
Context `{Collaborators}.

#[local] Arguments at_ : simpl never.
#[local] Arguments to_int : simpl never.
#[local] Arguments to_unsigned : simpl never.
#[local] Arguments to_size_t : simpl never.

Ltac run_monad :=
  unfold bind, gets, deref, ret, modify, emit, ROS_LOG, checked, fault, lift;
  simpl.

(** ** The choice of the strategy *)

(** X14: a strategy selector outside 0..3 ends the process: the [switch]
    takes its default case, which calls [exit]. *)
Theorem planRSBand_invalid_strategy st (ebandPlan : Plan) :
  eband2RSStrategy_ st < 0 \/ 3 < eband2RSStrategy_ st ->
  planRSBand ebandPlan st = Err ProcessExit.
Proof.
  intros Hstrategy. unfold planRSBand. unfold bind at 1. unfold gets.
  destruct (eband2RSStrategy_ st) as [|[[p|p|]|[p|p|]|]|p]; try lia; reflexivity.
Qed.

(** X15: the start-to-end strategy (selector 0).  On a band plan that is
    not empty (and shorter than 2^31 poses) the Reeds-Shepp planner is asked
    for one path from the first pose to the last; [failIdx] is the size of
    the band plan when the planner answers true and 0 when it answers
    false. *)
Theorem planRSBand_start_to_end st (ebandPlan : Plan) rs first last succeeded
    rsbandPlan rs' :
  eband2RSStrategy_ st = 0 ->
  rsbandPlanner_ st = Some rs ->
  front ebandPlan = Some first ->
  back ebandPlan = Some last ->
  size ebandPlan < 2 ^ 31 ->
  rs_planPath rs first last [] = (succeeded, rsbandPlan, rs') ->
  planRSBand ebandPlan st
  = Ok ((if succeeded then size ebandPlan else 0, rsbandPlan),
        set_rsbandPlanner (Some rs')
          (set_trace (CallRSPlan 0 :: trace_ st) st)) /\
  ((if succeeded then size ebandPlan else 0) = 0 <-> succeeded = false).
Proof.
  intros Hstrategy Hrs Hfirst Hlast Hsize Hplan.
  assert (Hpos : 0 < size ebandPlan).
  { unfold size. destruct ebandPlan; [done | simpl; lia]. }
  split.
  - unfold planRSBand. unfold bind at 1. unfold gets. rewrite Hstrategy.
    run_monad. rewrite Hrs; simpl. rewrite Hfirst; simpl. rewrite Hlast; simpl.
    rewrite Hplan; simpl. do 3 f_equal.
    destruct succeeded.
    + rewrite Z.mul_1_r, to_size_t_small, to_int_small by lia. done.
    + rewrite Z.mul_0_r. done.
  - destruct succeeded; split; (done || lia).
Qed.

(** ** The merge of the left out waypoints *)

Lemma set_trace_twice t t' (st : RSBandPlannerROS) :
  set_trace t (set_trace t' st) = set_trace t st.
Proof. done. Qed.

Lemma mergeLeftOut_run (poses : Plan) :
  forall fuel (i : nat) (ebandPlan rsbandPlan localPlan : Plan) st tf rsFirst
         ebFirst,
    tfListener_ st = Some tf ->
    front rsbandPlan = Some rsFirst ->
    front ebandPlan = Some ebFirst ->
    size ebandPlan < 2 ^ 32 ->
    Forall2
      (fun cur pose =>
         transformPose tf (Header.frame_id (PoseStamped.header rsFirst))
           (stamp_of ebFirst) cur (Header.frame_id (PoseStamped.header cur))
         = Some pose)
      (drop i ebandPlan) poses ->
    (length poses <= fuel)%nat ->
    mergeLeftOut fuel (Z.of_nat i) ebandPlan rsbandPlan localPlan st
    = Ok (localPlan ++ poses,
          set_trace (replicate (length poses) CallTransformPose ++ trace_ st) st).
Proof.
  induction poses as [|pose poses IH];
    intros fuel i ebandPlan rsbandPlan localPlan st tf rsFirst ebFirst
           Htf Hrs Heb Hsize Hall Hfuel.
  - apply Forall2_nil_inv_r in Hall.
    assert (Hi : (length ebandPlan <= i)%nat).
    { destruct (decide (length ebandPlan <= i)%nat); [done|].
      apply (f_equal length) in Hall. rewrite length_drop in Hall.
      simpl in Hall. lia. }
    rewrite app_nil_r. simpl.
    destruct fuel; cbn [mergeLeftOut]; unfold size; (case_decide; [lia|]);
      unfold ret; by destruct st.
  - apply Forall2_cons_inv_r in Hall as (cur & rest & Hcur & Hrest & Hdrop).
    assert (Hlookup : ebandPlan !! i = Some cur).
    { rewrite <- (Nat.add_0_r i), <- lookup_drop, Hdrop. done. }
    assert (Hnext : drop (S i) ebandPlan = rest).
    { replace (S i) with (i + 1)%nat by lia.
      by rewrite <- drop_drop, Hdrop. }
    pose proof (lookup_lt_Some _ _ _ Hlookup) as Hi.
    destruct fuel as [|fuel]; [simpl in Hfuel; lia|].
    cbn [mergeLeftOut]. unfold size in *. case_decide; [|lia].
    run_monad. rewrite Htf; simpl. rewrite Hrs; simpl. rewrite Heb; simpl.
    rewrite at_nat, Hlookup; simpl. rewrite Hcur.
    rewrite to_unsigned_small by lia.
    replace (Z.of_nat i + 1) with (Z.of_nat (S i)) by lia.
    rewrite (IH fuel (S i) ebandPlan rsbandPlan (localPlan ++ [pose]) _ tf
               rsFirst ebFirst); try done;
      [| by rewrite Hnext | simpl in Hfuel; lia].
    rewrite <- app_assoc. simpl. rewrite set_trace_twice.
    do 3 f_equal. clear. induction (length poses) as [|n IHn]; [done|].
    simpl. by rewrite IHn.
Qed.

(** X16: the merge of the left out waypoints.  With the Reeds-Shepp plan
    not empty and the band plan shorter than 2^32 poses, the loop that
    starts at index [i] of the band plan pushes to the back of the local
    plan the poses of the band plan from [i] on, each transformed to the
    frame of the first pose of the Reeds-Shepp plan at the stamp of the
    first pose of the band plan, in their order, when every one of these
    transforms succeeds; it calls tf once for each of them and changes no
    member.  A start index at or past the end of the band plan leaves the
    local plan as it is and calls nothing. *)
Theorem mergeLeftOut_appends st (i : nat) (ebandPlan rsbandPlan localPlan poses : Plan)
    tf rsFirst ebFirst :
  tfListener_ st = Some tf ->
  front rsbandPlan = Some rsFirst ->
  front ebandPlan = Some ebFirst ->
  size ebandPlan < 2 ^ 32 ->
  Forall2
    (fun cur pose =>
       transformPose tf (Header.frame_id (PoseStamped.header rsFirst))
         (stamp_of ebFirst) cur (Header.frame_id (PoseStamped.header cur))
       = Some pose)
    (drop i ebandPlan) poses ->
  mergeLeftOut (S (length ebandPlan)) (Z.of_nat i) ebandPlan rsbandPlan localPlan st
  = Ok (localPlan ++ poses,
        set_trace (replicate (length poses) CallTransformPose ++ trace_ st) st) /\
  (length poses = length ebandPlan - i)%nat /\
  ((length ebandPlan <= i)%nat -> poses = []).
Proof.
  intros Htf Hrs Heb Hsize Hall.
  pose proof (Forall2_length _ _ _ Hall) as Hlen. rewrite length_drop in Hlen.
  split; [|split; [done|]].
  - apply (mergeLeftOut_run poses _ i _ _ _ st tf rsFirst ebFirst); try done.
    lia.
  - intros Hi. apply length_zero_iff_nil. lia.
Qed.

(** X17: what stops the merge.  With a pose of the band plan left to merge
    at index [i], the loop reads [rsbandPlan.front()] without looking at
    the size of the Reeds-Shepp plan, which falls outside an empty one; and
    a transform that throws ends the run with the exception of tf. *)
Theorem mergeLeftOut_faults st fuel (i : nat) (ebandPlan rsbandPlan localPlan : Plan)
    tf cur :
  tfListener_ st = Some tf ->
  ebandPlan !! i = Some cur ->
  (rsbandPlan = [] ->
   mergeLeftOut (S fuel) (Z.of_nat i) ebandPlan rsbandPlan localPlan st
   = Err OutOfRange) /\
  (forall rsFirst ebFirst,
      front rsbandPlan = Some rsFirst ->
      front ebandPlan = Some ebFirst ->
      transformPose tf (Header.frame_id (PoseStamped.header rsFirst))
        (stamp_of ebFirst) cur (Header.frame_id (PoseStamped.header cur))
      = None ->
      mergeLeftOut (S fuel) (Z.of_nat i) ebandPlan rsbandPlan localPlan st
      = Err TfException).
Proof.
  intros Htf Hcur.
  pose proof (lookup_lt_Some _ _ _ Hcur) as Hi.
  split.
  - intros ->. cbn [mergeLeftOut]. unfold size. case_decide; [|lia].
    run_monad. by rewrite Htf.
  - intros rsFirst ebFirst Hrs Heb Hthrow.
    cbn [mergeLeftOut]. unfold size. case_decide; [|lia].
    run_monad. rewrite Htf; simpl. rewrite Hrs; simpl. rewrite Heb; simpl.
    rewrite at_nat, Hcur; simpl. by rewrite Hthrow.
Qed.


(** ** What the merge leaves alone *)

Lemma same_setup_refl st : same_setup st st.
Proof. by repeat split. Qed.

Lemma same_setup_trans st1 st2 st3 :
  same_setup st1 st2 -> same_setup st2 st3 -> same_setup st1 st3.
Proof.
  unfold same_setup. intros (? & ? & ? & ? & ? & ? & ?) (? & ? & ? & ? & ? & ? & ?).
  repeat split; congruence.
Qed.

Lemma mergeLeftOut_same_setup fuel :
  forall i (ebandPlan rsbandPlan localPlan out : Plan) st st',
    mergeLeftOut fuel i ebandPlan rsbandPlan localPlan st = Ok (out, st') ->
    same_setup st st'.
Proof.
  induction fuel as [|fuel IH];
    intros i ebandPlan rsbandPlan localPlan out st st'; cbn [mergeLeftOut].
  - case_decide; [done|]. intros [= _ <-]. apply same_setup_refl.
  - case_decide; [|intros [= _ <-]; apply same_setup_refl].
    run_monad.
    destruct (tfListener_ st) as [tf|]; simpl; [|done].
    destruct (front rsbandPlan) as [rsFirst|]; simpl; [|done].
    destruct (front ebandPlan) as [ebFirst|]; simpl; [|done].
    destruct (at_ ebandPlan i) as [cur|]; simpl; [|done].
    destruct (transformPose _ _ _ _ _) as [pose|]; simpl; [|done].
    intros Hrest. apply IH in Hrest.
    eapply same_setup_trans; [|exact Hrest]. by repeat split.
Qed.

End Stitching.

Section Cycle.
Context `{Collaborators}.

#[local] Arguments at_ : simpl never.
#[local] Arguments to_int : simpl never.
#[local] Arguments to_unsigned : simpl never.
#[local] Arguments to_size_t : simpl never.
#[local] Arguments slice_from : simpl never.
#[local] Arguments interpolateOrientations : simpl never.
#[local] Arguments mergeLeftOut : simpl never.

Ltac run_monad :=
  unfold bind, gets, deref, ret, modify, emit, ROS_LOG, checked, fault, lift;
  simpl.

Ltac cases_of_run tac :=
  repeat match goal with
         | |- context [match ?x with _ => _ end] =>
             lazymatch x with
             | context [match _ with _ => _ end] => fail
             | _ => destruct x eqn:?; simpl; try tac
             end
         end.

Ltac end_of_run Hrun :=
  intros Hrun; apply Ok_pair_inj in Hrun; destruct Hrun as [Hanswer <-].

(** ** What a cycle leaves alone *)

Lemma isGoalReached_same_setup st reached st' :
  isGoalReached st = Ok (reached, st') -> same_setup st st'.
Proof.
  unfold isGoalReached. run_monad.
  cases_of_run ltac:(intros; discriminate).
  all: end_of_run Hrun; by repeat split.
Qed.

Lemma updateEBand_same_setup st ok st' :
  updateEBand st = Ok (ok, st') -> same_setup st st'.
Proof.
  unfold updateEBand, planToAppend, ebandAddFrames, ebandOptimizeBand,
    eband_call, callTransformGlobalPlan.
  run_monad. cases_of_run ltac:(intros; discriminate).
  all: end_of_run Hrun; simpl.
  all: repeat split; simpl; congruence.
Qed.

Lemma planRSBand_same_setup st ebandPlan failIdx rsbandPlan st' :
  planRSBand ebandPlan st = Ok ((failIdx, rsbandPlan), st') -> same_setup st st'.
Proof.
  unfold planRSBand. unfold bind at 1. unfold gets.
  destruct (eband2RSStrategy_ st) as [|[[p|p|]|[p|p|]|]|p] eqn:Hstrategy;
    run_monad; try (intros; discriminate).
  all: cases_of_run ltac:(intros; discriminate).
  all: end_of_run Hrun; simpl.
  all: repeat split; simpl; congruence.
Qed.

(** ** computeVelocityCommands *)

Ltac unfold_cycle :=
  unfold computeVelocityCommands; run_monad.


(** X20: a cycle leaves the global plan and the configuration alone:
    whatever [computeVelocityCommands] returns, the global plan, the
    initialization flag, the tf listener, the costmap, the strategy and the
    tolerances are the ones it found. *)
Theorem computeVelocityCommands_same_setup st cmd answer st' :
  computeVelocityCommands cmd st = Ok (answer, st') -> same_setup st st'.
Proof.
  unfold_cycle. cases_of_run ltac:(intros; discriminate).
  all: end_of_run Hrun; clear Hanswer.
  all: repeat match goal with
              | Hq : isGoalReached _ = Ok _ |- _ =>
                  apply isGoalReached_same_setup in Hq
              | Hq : updateEBand _ = Ok _ |- _ =>
                  apply updateEBand_same_setup in Hq
              | Hq : planRSBand _ _ = Ok _ |- _ =>
                  apply planRSBand_same_setup in Hq
              | Hq : mergeLeftOut _ _ _ _ _ _ = Ok _ |- _ =>
                  apply mergeLeftOut_same_setup in Hq
              end.
  all: unfold same_setup in *; simpl in *.
  all: repeat match goal with
              | Hq : _ /\ _ |- _ => destruct Hq
              end.
  all: repeat split; congruence.
Qed.

End Cycle.

Section Configuration.
Context `{Collaborators}.

(** ** reconfigureCallback and initialize *)

(** X21: [reconfigureCallback] never fails.  It stores the two tolerances
    and the strategy of the configuration whatever the state of the
    planner, and hands the configuration to the Reeds-Shepp planner and to
    the path tracking controller when they exist; for each one that does
    not exist yet it logs an error and goes on.  The plans, the counters,
    the band and the initialization flag are left as they were. *)
Theorem reconfigureCallback_stores config st :
  exists st',
    reconfigureCallback config st = Ok (tt, st') /\
    xyGoalTolerance_ st' = xy_goal_tolerance config /\
    yawGoalTolerance_ st' = yaw_goal_tolerance config /\
    eband2RSStrategy_ st' = eband_to_rs_strategy config /\
    rsbandPlanner_ st' = (fun p => rs_reconfigure p config) <$> rsbandPlanner_ st /\
    ptc_ st' = (fun p => ptc_reconfigure p config) <$> ptc_ st /\
    trace_ st'
    = match ptc_ st with
      | Some _ => []
      | None =>
          [Log ERROR
             "Reconfigure CB called before path tracking controller initialization!"]
      end
      ++ match rsbandPlanner_ st with
         | Some _ => []
         | None =>
             [Log ERROR
                "Reconfigure CB called before reeds shepp planner initialization"]
         end
      ++ trace_ st /\
    initialized_ st' = initialized_ st /\
    globalPlan_ st' = globalPlan_ st /\
    transformedPlan_ st' = transformedPlan_ st /\
    planStartEndCounters_ st' = planStartEndCounters_ st /\
    ebandPlanner_ st' = ebandPlanner_ st.
Proof.
  destruct st as [init tf cm eb [rs|] [ptc|] strategy xy yaw gp tp counters trace].
  all: eexists; split; [vm_compute; reflexivity|]; by vm_compute.
Qed.

(** X22: [initialize] never fails and always leaves the planner
    initialized, with the plans and the counters it found.  On a planner
    not yet initialized it stores the tf listener and the costmap it is
    given and creates the elastic band planner on that costmap. *)
Theorem initialize_initializes name tf cm st :
  exists st',
    initialize name tf cm st = Ok (tt, st') /\
    initialized_ st' = true /\
    globalPlan_ st' = globalPlan_ st /\
    transformedPlan_ st' = transformedPlan_ st /\
    planStartEndCounters_ st' = planStartEndCounters_ st /\
    (initialized_ st = false ->
     tfListener_ st' = Some tf /\
     costmapROS_ st' = Some cm /\
     ebandPlanner_ st' = Some (new_EBandPlanner name cm)).
Proof.
  destruct st as [[] tf0 cm0 eb rs ptc strategy xy yaw gp tp counters trace].
  all: eexists; split; [vm_compute; reflexivity|]; by vm_compute.
Qed.

End Configuration.

(** * The further properties on the scripted collaborators *)

Section MoreScriptedRuns.
Import Scripted Cases.
#[local] Existing Instance collaborators.

Lemma not_initialized_rejected_witness :
  setPlan path9 fresh
  = Ok (false,
        set_trace (Log ERROR "Planner must be initialized before setPlan is called!"
                   :: trace_ fresh) fresh) /\
  isGoalReached fresh
  = Ok (false,
        set_trace
          (Log ERROR "Planner must be initialized before isGoalReached is called!"
           :: trace_ fresh) fresh) /\
  updateEBand fresh
  = Ok (false,
        set_trace
          (Log WARN "Planner must be initialized before updateEBand is called!"
           :: trace_ fresh) fresh) /\
  computeVelocityCommands some_command fresh
  = Ok ((false, some_command),
        set_trace
          (Log ERROR
             "Planner must be initialized before computeVelocityCommands is called!"
           :: trace_ fresh) fresh).
Proof. apply (not_initialized_rejected fresh path9 some_command). reflexivity. Defined.

Lemma isGoalReached_reads_only_witness :
  after (isGoalReached at_tolerance) at_tolerance
  = set_trace (trace_ (after (isGoalReached at_tolerance) at_tolerance))
      at_tolerance.
Proof.
  apply (isGoalReached_reads_only at_tolerance false). vm_compute. reflexivity.
Defined.


Lemma setPlan_relaxation_not_fatal_witness :
  exists st' events,
    setPlan path9 no_plan_unrelaxed = Ok (true, st') /\
    ebandPlanner_ st' = Some (mkBand path9 false true) /\
    planStartEndCounters_ st' = [0; 9] /\
    transformedPlan_ st' = path9 /\
    trace_ st' = events ++ CallEBandOptimizeBand :: CallEBandSetPlan path9
                 :: CallTransformGlobalPlan :: trace_ no_plan_unrelaxed /\
    events = [Log WARN "Optimization of eband failed!"].
Proof.
  apply (setPlan_relaxation_not_fatal no_plan_unrelaxed path9
           (true, path9, [0; 9]) (Some robot) (mkBand [] false true) path9
           [0; 9] (mkBand path9 false true) false (mkBand path9 false true));
    try reflexivity.
  done.
Defined.

Lemma updateEBand_keeps_global_plan_witness :
  globalPlan_ (after (updateEBand counters_20_15) counters_20_15) = path9.
Proof.
  apply (updateEBand_keeps_global_plan counters_20_15 true).
  vm_compute. reflexivity.
Defined.


Lemma updateEBand_early_failures_witness :
  updateEBand lost
  = Ok (false,
        set_trace (Log ERROR "Could not get robot pose!" :: CallGetRobotPose
                   :: trace_ lost) lost) /\
  updateEBand closed_band
  = Ok (false,
        set_trace
          (Log WARN "Could not connect current robot pose to existing eband!"
           :: CallEBandAddFrames [robot] add_front
           :: CallGetRobotPose :: trace_ closed_band)
          (set_ebandPlanner (Some (mkBand [pose_at 7 5 0 0.5] true false))
             closed_band)).
Proof.
  split.
  - apply (updateEBand_early_failures lost None); reflexivity.
  - apply (updateEBand_early_failures closed_band (Some robot)
             eq_refl eq_refl) with (eb := mkBand [pose_at 7 5 0 0.5] true false);
      reflexivity.
Defined.

Lemma updateEBand_counters_out_of_range_witness :
  updateEBand no_plan = Err OutOfRange.
Proof.
  apply (updateEBand_counters_out_of_range no_plan (Some robot)
           (true, path9, [0; 9]) band1
           (mkBand [robot; pose_at 7 5 0 0.5] true true) robot path9 [0; 9]);
    try reflexivity; [done|].
  left. by vm_compute.
Defined.

Lemma interpolateOrientations_same_places_witness :
  length (match interpolateOrientations four_poses with
          | Ok out => out
          | Err _ => []
          end) = length four_poses.
Proof.
  apply (interpolateOrientations_same_places four_poses). vm_compute. reflexivity.
Defined.

Lemma interpolateOrientations_one_stamp_witness :
  Forall (fun p => stamp_of p = stamp_of (pose_at 1 0 0 0.5))
    (match interpolateOrientations four_poses with
     | Ok out => out
     | Err _ => []
     end).
Proof.
  apply (interpolateOrientations_one_stamp four_poses).
  - by vm_compute.
  - reflexivity.
  - vm_compute. reflexivity.
Defined.

Lemma interpolateOrientations_idempotent_witness :
  interpolateOrientations
    (match interpolateOrientations four_poses with
     | Ok out => out
     | Err _ => []
     end)
  = Ok (match interpolateOrientations four_poses with
        | Ok out => out
        | Err _ => []
        end).
Proof.
  apply (interpolateOrientations_idempotent four_poses).
  - by vm_compute.
  - vm_compute. reflexivity.
Defined.

Lemma planRSBand_invalid_strategy_witness :
  planRSBand path9 misconfigured = Err ProcessExit.
Proof. apply planRSBand_invalid_strategy. right. by vm_compute. Defined.

Lemma planRSBand_start_to_end_witness :
  planRSBand path9 counters_20_15
  = Ok ((size path9, [pose_at 7 5 0 0.5; pose_at 7 13 0 0.5]),
        set_rsbandPlanner (Some tt)
          (set_trace (CallRSPlan 0 :: trace_ counters_20_15) counters_20_15)).
Proof.
  apply (planRSBand_start_to_end counters_20_15 path9 tt (pose_at 7 5 0 0.5)
           (pose_at 7 13 0 0.5) true [pose_at 7 5 0 0.5; pose_at 7 13 0 0.5] tt);
    try reflexivity.
Defined.

Lemma mergeLeftOut_appends_witness :
  mergeLeftOut (S (length three_poses)) (Z.of_nat 1) three_poses four_poses
    four_poses counters_20_15
  = Ok (four_poses ++ drop 1 three_poses,
        set_trace (replicate 2 CallTransformPose ++ trace_ counters_20_15)
          counters_20_15).
Proof.
  apply (mergeLeftOut_appends counters_20_15 1 three_poses four_poses four_poses
           (drop 1 three_poses) (true, path9, [17; 12]) (pose_at 1 0 0 0.5)
           (pose_at 1 0 0 0.5));
    try reflexivity.
  repeat constructor.
Defined.

Lemma mergeLeftOut_faults_witness :
  mergeLeftOut 4 (Z.of_nat 1) three_poses [] [] counters_20_15 = Err OutOfRange.
Proof.
  apply (mergeLeftOut_faults counters_20_15 3 1 three_poses [] []
           (true, path9, [17; 12]) (pose_at 2 1 0 0.25));
    reflexivity.
Defined.



Lemma computeVelocityCommands_same_setup_witness :
  same_setup counters_20_15
    (after (computeVelocityCommands some_command counters_20_15) counters_20_15).
Proof.
  apply (computeVelocityCommands_same_setup counters_20_15 some_command
           (true, Twist.mk (Vector3.mk 1 0 0) (Vector3.mk 4 5 6))).
  vm_compute. reflexivity.
Defined.

Lemma initialize_initializes_witness :
  exists st',
    initialize "rsband" (true, path9, [0; 9]) (Some robot) fresh = Ok (tt, st') /\
    initialized_ st' = true /\
    globalPlan_ st' = globalPlan_ fresh /\
    transformedPlan_ st' = transformedPlan_ fresh /\
    planStartEndCounters_ st' = planStartEndCounters_ fresh /\
    (initialized_ fresh = false ->
     tfListener_ st' = Some (true, path9, [0; 9]) /\
     costmapROS_ st' = Some (Some robot) /\
     ebandPlanner_ st' = Some (new_EBandPlanner "rsband" (Some robot))).
Proof.
  exact (@initialize_initializes collaborators "rsband" (true, path9, [0; 9])
           (Some robot) fresh).
Defined.

End MoreScriptedRuns.

Section RetryRuns.
Import Retry.
#[local] Existing Instance collaborators.

Lemma setPlan_retries_once_witness :
  (exists st',
      setPlan Scripted.path9 (planner reluctant) = Ok (true, st') /\
      costmapROS_ st' = Some (true, Some Scripted.robot) /\
      planStartEndCounters_ st' = [0; 9]) /\
  (exists st',
      setPlan Scripted.path9 (planner stubborn) = Ok (false, st') /\
      costmapROS_ st' = Some (true, Some Scripted.robot) /\
      planStartEndCounters_ st' = []).
Proof.
  split.
  - destruct (setPlan_retries_once (planner reluctant) Scripted.path9
                (true, Scripted.path9, [0; 9]) (false, Some Scripted.robot)
                reluctant Scripted.path9 [0; 9] reluctant true
                (mkBand Scripted.path9 false true))
      as (st' & Hrun & Hcm & _ & Htrue); try reflexivity; [done|].
    exists st'. split; [done|]. split; [done|]. by apply Htrue.
  - destruct (setPlan_retries_once (planner stubborn) Scripted.path9
                (true, Scripted.path9, [0; 9]) (false, Some Scripted.robot)
                stubborn Scripted.path9 [0; 9] stubborn false stubborn)
      as (st' & Hrun & Hcm & Hfalse & _); try reflexivity; [done|].
    exists st'. split; [done|]. split; [done|]. by apply Hfalse.
Defined.


End RetryRuns.

